(** * Policy compliance checker: the retrieval-augmented reasoning core

    A shallow embedding of [compliance_checker.py]: the [ComplianceChecker]
    class (constructor, [check_compliance], [answer_question]) together with
    the parts of the Python runtime it relies on ([str.join], f-strings,
    [dict.get], dict literals and [json.dumps(..., indent=2)]).

    The vector store, the language model and the file system are objects
    injected from outside; they are modelled as records of methods acting on
    an abstract world state, and the checker runs in a state-and-exception
    monad that also records every call made to them. *)

From Stdlib Require Import ZArith NArith Ascii String DecimalString.
From stdpp Require Import base list gmap.

Local Open Scope Z_scope.

(** ** Python strings

    A Python [str] is a sequence of Unicode code points. *)

Definition pychar := N.
Definition pystr := list N.

(** A string literal of the source, as a sequence of code points. *)
Definition lit (x : string) : pystr :=
  List.map N_of_ascii (list_ascii_of_string x).

(** [sep.join(parts)] *)
Fixpoint join (sep : pystr) (parts : list pystr) : pystr :=
  match parts with
  | [] => []
  | [p] => p
  | p :: rest => p ++ sep ++ join sep rest
  end.

(** [sub in s]: [sub] occurs in [s] as a contiguous run of characters. *)
Definition occurs_in (sub s : pystr) : Prop :=
  exists pre post, s = pre ++ sub ++ post.

(** ** Python values

    The values that [json.load] produces and that a result dictionary or a
    passage's metadata holds.  A dict keeps its insertion order, which
    [json.dumps] follows, so it is an association list.  A float is kept by
    the text of its [repr], except for the three values that [json.dumps]
    spells in its own way. *)

Inductive pyfloat :=
| FNaN
| FInfinity
| FNegInfinity
| FFinite (repr : pystr).

#[warnings="-register-all"]
Inductive pyval :=
| PNone
| PBool (b : bool)
| PInt (z : Z)
| PFloat (f : pyfloat)
| PStr (s : pystr)
| PList (items : list pyval)
| PDict (entries : list (pystr * pyval)).

Definition pydict := list (pystr * pyval).

(** [key in d] and [d[key]] on an insertion-ordered dict. *)
Fixpoint dict_lookup (d : pydict) (key : pystr) : option pyval :=
  match d with
  | [] => None
  | (k, v) :: rest => if decide (k = key) then Some v else dict_lookup rest key
  end.

Definition dict_keys (d : pydict) : list pystr := List.map fst d.

(** ** [json.dumps(obj, indent=2)]

    The encoder of the standard library with its defaults:
    [ensure_ascii=True], [sort_keys=False], [allow_nan=True], and, because an
    indent is given, the separators [","] and [": "]. *)
Module Json.

Definition hex_digit (d : N) : pychar :=
  if (d <? 10)%N then (48 + d)%N else (87 + d)%N.

(** ['{0:04x}'.format(n)] for [n < 0x10000] *)
Definition hex4 (n : N) : pystr :=
  [ hex_digit (N.land (N.shiftr n 12) 15);
    hex_digit (N.land (N.shiftr n 8) 15);
    hex_digit (N.land (N.shiftr n 4) 15);
    hex_digit (N.land n 15) ].

(** ['\\u{0:04x}'.format(n)] *)
Definition u_escape (n : N) : pystr := lit "\u" ++ hex4 n.

(** The replacement of one character matched by [ESCAPE_ASCII], that is of
    a backslash, a double quote, or anything outside [' '..'~']. *)
Definition escape_char (c : pychar) : pystr :=
  if (c =? 92)%N then lit "\\"
  else if (c =? 34)%N then [92; 34]%N
  else if (c =? 8)%N then lit "\b"
  else if (c =? 12)%N then lit "\f"
  else if (c =? 10)%N then lit "\n"
  else if (c =? 13)%N then lit "\r"
  else if (c =? 9)%N then lit "\t"
  else if (c <? 32)%N then u_escape c
  else if (c <=? 126)%N then [c]
  else if (c <? 65536)%N then u_escape c
  else
    let n := (c - 65536)%N in
    let s1 := N.lor 55296 (N.land (N.shiftr n 10) 1023) in
    let s2 := N.lor 56320 (N.land n 1023) in
    u_escape s1 ++ u_escape s2.

(** [py_encode_basestring_ascii(s)] *)
Definition encode_basestring_ascii (s : pystr) : pystr :=
  [34%N] ++ List.concat (List.map escape_char s) ++ [34%N].

(** [int.__repr__(z)] *)
Definition int_repr (z : Z) : pystr :=
  lit (NilZero.string_of_int (Z.to_int z)).

(** [floatstr(f)] *)
Definition floatstr (f : pyfloat) : pystr :=
  match f with
  | FNaN => lit "NaN"
  | FInfinity => lit "Infinity"
  | FNegInfinity => lit "-Infinity"
  | FFinite repr => repr
  end.

(** ['\n' + _indent * level], with [_indent] two spaces *)
Definition newline_indent (level : nat) : pystr :=
  10%N :: List.concat (List.repeat (lit "  ") level).

(** What [_iterencode_list] and [_iterencode_dict] yield for a non-empty
    container, from the already encoded items. *)
Definition encode_items (opening closing : pystr) (level : nat)
    (items : list pystr) : pystr :=
  opening ++ newline_indent (S level)
    ++ join (lit "," ++ newline_indent (S level)) items
    ++ newline_indent level ++ closing.

(** [_iterencode(o, level)], joined *)
Fixpoint encode (level : nat) (o : pyval) : pystr :=
  match o with
  | PNone => lit "null"
  | PBool true => lit "true"
  | PBool false => lit "false"
  | PInt z => int_repr z
  | PFloat f => floatstr f
  | PStr s => encode_basestring_ascii s
  | PList [] => lit "[]"
  | PList items =>
      encode_items (lit "[") (lit "]") level
        (List.map (encode (S level)) items)
  | PDict [] => lit "{}"
  | PDict entries =>
      encode_items (lit "{") (lit "}") level
        (List.map (fun kv =>
                     match kv with
                     | (k, v) =>
                         encode_basestring_ascii k ++ lit ": "
                           ++ encode (S level) v
                     end) entries)
  end.


Definition dumps (o : pyval) : pystr := encode 0 o.

End Json.

(** ** Exceptions and the outside world *)

(** A raised exception: its class and its message. *)
Inductive pyexn := PyExn (cls message : pystr).

(** A call either returns a value or raises. *)
Inductive outcome (A : Type) :=
| Return (a : A)
| Raise (e : pyexn).
Arguments Return {A} a.
Arguments Raise {A} e.

(** A passage as the vector store hands it out: [doc.page_content] and
    [doc.metadata]. *)
Record Document := {
  page_content : pystr;
  metadata : gmap pystr pyval
}.

(** The object [generate_content] returns; reading [response.text] is a
    property access, which may raise as well. *)
Record Response := { text : outcome pystr }.

(** The calls that leave the checker, in the order they are made. *)
Inductive call :=
| CallLoadRules (path : pystr)
| CallSearch (query : pystr) (k : Z)
| CallGenerate (prompt : pystr).

(** The prompts handed to the language model along a sequence of calls. *)
Definition generated_prompts (cs : list call) : list pystr :=
  omap (fun c => match c with CallGenerate p => Some p | _ => None end) cs.

(** [doc.metadata.get("filename", "Unknown")] *)
Definition source_of (doc : Document) : pyval :=
  default (PStr (lit "Unknown")) (metadata doc !! lit "filename").

(** The delimiter put between two passages: a horizontal rule between
    blank lines. *)
Definition passage_delimiter : pystr := lit "

---

".

(** ["\n\n---\n\n".join([doc.page_content for doc in relevant_docs])] *)
Definition context_of (relevant_docs : list Document) : pystr :=
  join passage_delimiter (List.map page_content relevant_docs).

(** The fixed text that closes the compliance prompt, after the query. *)
Definition response_directive : pystr :=
  lit "

Provide a detailed compliance analysis with:
1. COMPLIANCE STATUS: [COMPLIANT/NON-COMPLIANT/PARTIAL]
2. APPLICABLE RULES: Which rules apply
3. EVIDENCE: Specific quotes from contracts
4. VIOLATIONS: Any issues found
5. REMEDIATION: Steps to fix issues

Response:
".

(** The f-string of [check_compliance]. *)
Definition compliance_prompt (compliance_rules : pyval)
    (context query : pystr) : pystr :=
  lit "
You are a legal compliance expert analyzing contracts.

COMPLIANCE RULES:
" ++ Json.dumps compliance_rules ++ lit "

CONTRACT SECTIONS:
" ++ context ++ lit "

QUERY: " ++ query ++ response_directive.

(** The f-string of [answer_question]. *)
Definition qa_prompt (context question : pystr) : pystr :=
  lit "
Based on the following contract information, answer the question accurately.

CONTRACT INFORMATION:
" ++ context ++ lit "

QUESTION: " ++ question ++ lit "

Provide a clear, detailed answer with specific references.

Answer:
".

Section Checker.

(** The state of everything outside the checker: the file system, the
    vector index, the remote model. *)
Context {W : Type}.

(** [self.vectorstore]: any object with a [similarity_search] method. *)
Record VectorStore := {
  similarity_search : pystr -> Z -> W -> outcome (list Document) * W
}.

(** [self.llm]: any object with a [generate_content] method. *)
Record LLM := {
  generate_content : pystr -> W -> outcome Response * W
}.

(** [with open(rules_path, 'r') as f: json.load(f)], which reads the file
    system: it returns the parsed value or raises ([OSError],
    [JSONDecodeError]). *)
Variable load_json_file : pystr -> W -> outcome pyval * W.

Record state := {
  world : W;
  calls : list call
}.

(** Computations that read and change the world, may raise, and leave a
    record of the calls they made. *)
Definition M (A : Type) : Type := state -> outcome A * state.

Definition ret {A} (a : A) : M A := fun st => (Return a, st).

Definition bind {A B} (m : M A) (f : A -> M B) : M B :=
  fun st =>
    match m st with
    | (Return a, st') => f a st'
    | (Raise e, st') => (Raise e, st')
    end.

(** An outside call: it is logged, then performed on the world. *)
Definition perform {A} (c : call) (op : W -> outcome A * W) : M A :=
  fun st =>
    let (r, w') := op (world st) in
    (r, {| world := w'; calls := calls st ++ [c] |}).

(** Evaluating an expression that may raise without touching the world. *)
Definition eval {A} (r : outcome A) : M A := fun st => (r, st).

Notation "x <- m ;; f" := (bind m (fun x => f))
  (at level 100, m at next level, right associativity).

Record ComplianceChecker := {
  vectorstore : VectorStore;
  llm : LLM;
  compliance_rules : pyval
}.

(** [ComplianceChecker.__init__] *)
Definition init (vectorstore : VectorStore) (llm : LLM)
    (rules_path : pystr) : M ComplianceChecker :=
  rules <- perform (CallLoadRules rules_path) (load_json_file rules_path) ;;
  ret {| vectorstore := vectorstore; llm := llm;
         compliance_rules := rules |}.

(** [ComplianceChecker.check_compliance] *)
Definition check_compliance (self : ComplianceChecker)
    (query : pystr) (top_k : Z) : M pydict :=
  relevant_docs <-
    perform (CallSearch query top_k)
      (similarity_search (vectorstore self) query top_k) ;;
  let context := context_of relevant_docs in
  let prompt := compliance_prompt (compliance_rules self) context query in
  response <-
    perform (CallGenerate prompt) (generate_content (llm self) prompt) ;;
  response_text <- eval (text response) ;;
  ret [ (lit "query", PStr query);
        (lit "response", PStr response_text);
        (lit "sources", PList (List.map source_of relevant_docs));
        (lit "num_sources", PInt (Z.of_nat (length relevant_docs))) ].

(** [ComplianceChecker.answer_question] *)
Definition answer_question (self : ComplianceChecker)
    (question : pystr) (top_k : Z) : M pydict :=
  relevant_docs <-
    perform (CallSearch question top_k)
      (similarity_search (vectorstore self) question top_k) ;;
  let context := context_of relevant_docs in
  let prompt := qa_prompt context question in
  response <-
    perform (CallGenerate prompt) (generate_content (llm self) prompt) ;;
  response_text <- eval (text response) ;;
  ret [ (lit "question", PStr question);
        (lit "answer", PStr response_text);
        (lit "sources", PList (List.map source_of relevant_docs)) ].

(** The default [top_k=5] of both methods. *)
Definition default_top_k : Z := 5.

End Checker.

Arguments VectorStore W : clear implicits.
Arguments LLM W : clear implicits.
Arguments ComplianceChecker W : clear implicits.
Arguments state W : clear implicits.

(** The result dict of [check_compliance]. *)
Definition compliance_result (query response_text : pystr)
    (relevant_docs : list Document) : pydict :=
  [ (lit "query", PStr query);
    (lit "response", PStr response_text);
    (lit "sources", PList (List.map source_of relevant_docs));
    (lit "num_sources", PInt (Z.of_nat (length relevant_docs))) ].

(** The result dict of [answer_question]. *)
Definition qa_result (question response_text : pystr)
    (relevant_docs : list Document) : pydict :=
  [ (lit "question", PStr question);
    (lit "answer", PStr response_text);
    (lit "sources", PList (List.map source_of relevant_docs)) ].

(** The calls a computation adds to the record when started in [st]. *)
Definition new_calls {W A} (m : M A) (st : state W) : list call :=
  drop (length (calls st)) (calls (m st).2).

(** After retrieval: call the model on [prompt], read its text, and
    package with [pack]. *)
Definition finish {W} (model : LLM W) (prompt : pystr) (pack : pystr -> pydict)
    (log : list call) (w1 : W) : outcome pydict * state W :=
  match generate_content model prompt w1 with
  | (Raise e, w2) =>
      (Raise e, {| world := w2; calls := log ++ [CallGenerate prompt] |})
  | (Return resp, w2) =>
      match text resp with
      | Raise e =>
          (Raise e, {| world := w2; calls := log ++ [CallGenerate prompt] |})
      | Return t =>
          (Return (pack t),
           {| world := w2; calls := log ++ [CallGenerate prompt] |})
      end
  end.

(** A result lists as ["Unknown"] every passage of [docs] that has no
    [filename] in its metadata. *)
Definition unnamed_listed_unknown (docs : list Document) (r : pydict) : Prop :=
  exists sources,
    dict_lookup r (lit "sources") = Some (PList sources)
    /\ forall i doc,
         docs !! i = Some doc ->
         metadata doc !! lit "filename" = None ->
         sources !! i = Some (PStr (lit "Unknown")).


(** ** The validation the specification describes

    The specification asks a loader to check every rule record: all fields
    present and a severity among three values.  The source has no such
    check; the predicate below states what the specification asks, so that
    the behaviour of [init] can be compared with it. *)
Module Spec.

Definition required_fields : list pystr :=
  [ lit "name"; lit "description"; lit "severity"; lit "check";
    lit "remediation"; lit "related_columns" ].

Definition severities : list pystr := [ lit "HIGH"; lit "MEDIUM"; lit "LOW" ].

Definition valid_rule (record : pyval) : bool :=
  match record with
  | PDict fields =>
      forallb (fun f => bool_decide (is_Some (dict_lookup fields f)))
        required_fields
      && match dict_lookup fields (lit "severity") with
         | Some (PStr s) => bool_decide (s ∈ severities)
         | _ => false
         end
  | _ => false
  end.

Definition valid_source (source : pyval) : bool :=
  match source with
  | PDict rules => forallb (fun rule => valid_rule rule.2) rules
  | _ => false
  end.

End Spec.

(** ** A concrete deployment

    One rule file, a three-passage index that returns its first [k]
    passages, and stub models; the world counts the calls the model has
    served. *)
Module Scenario.

Definition rules_path : pystr := lit "data/compliance_rules.json".
Definition bad_rules_path : pystr := lit "data/bad_rules.json".

Definition rule_R1 : pyval :=
  PDict [ (lit "name", PStr (lit "Party ID"));
          (lit "description", PStr (lit "Parties must be identified"));
          (lit "severity", PStr (lit "HIGH"));
          (lit "check", PStr (lit "Both parties are named"));
          (lit "remediation", PStr (lit "Add the party names"));
          (lit "related_columns", PList [PStr (lit "Parties")]) ].

Definition rules : pyval := PDict [ (lit "R1", rule_R1) ].

(** A record with an unknown severity and most fields missing. *)
Definition bad_rules : pyval :=
  PDict [ (lit "R9", PDict [ (lit "name", PStr (lit "Broken"));
                             (lit "severity", PStr (lit "CRITICAL")) ]) ].

Definition files (path : pystr) (w : nat) : outcome pyval * nat :=
  if decide (path = rules_path) then (Return rules, w)
  else if decide (path = bad_rules_path) then (Return bad_rules, w)
  else (Raise (PyExn (lit "FileNotFoundError") path), w).

Definition passage_c1 : Document :=
  {| page_content := lit "Party A is Acme Corp.";
     metadata := {[ lit "filename" := PStr (lit "c1.txt") ]} |}.

Definition passage_anonymous : Document :=
  {| page_content := lit "Term: 12 months."; metadata := ∅ |}.

Definition corpus : list Document :=
  [ passage_c1; passage_anonymous; passage_c1 ].

Definition index : VectorStore nat :=
  {| similarity_search := fun _ k w => (Return (take (Z.to_nat k) corpus), w) |}.

Definition stub_llm : LLM nat :=
  {| generate_content := fun _ w =>
       (Return {| text := Return (lit "1. COMPLIANT...") |}, S w) |}.

Definition quota_error : pyexn :=
  PyExn (lit "ResourceExhausted") (lit "quota exceeded").

Definition failing_llm : LLM nat :=
  {| generate_content := fun _ w => (Raise quota_error, S w) |}.

Definition checker : ComplianceChecker nat :=
  {| vectorstore := index; llm := stub_llm; compliance_rules := rules |}.

Definition failing_checker : ComplianceChecker nat :=
  {| vectorstore := index; llm := failing_llm; compliance_rules := rules |}.

Definition query : pystr := lit "Are the contracting parties identified?".

Definition start : state nat := {| world := 0%nat; calls := [] |}.

End Scenario.

(** * The pages of the application

    The three pages of [app.py] that work on the checker and on the rules:
    [show_compliance_checker], [show_qa_system] and [show_rules_explorer].
    A page is a script that Streamlit runs from top to bottom on every
    interaction: each call to the [st] module is recorded in the order it
    is made, and the values the widgets return in this run are given. *)

(** A chat message, [{"role": ..., "content": ...}]. *)
Record message := {
  role : pystr;
  content : pyval
}.

(** [st.session_state], with the two entries the pages use; an entry that
    has not been set is [None]. *)
Record session := {
  compliance_query : option pystr;
  messages : option (list message)
}.

(** The blocks entered with [with]. *)
Inductive st_container :=
| Column (i : nat)
| Spinner (text : pystr)
| Expander (label : pystr)
| ChatMessage (name : pystr).

(** The calls to the [st] module, with their arguments. *)
Inductive st_call :=
| StHeader (body : pystr)
| StSubheader (body : pystr)
| StWrite (body : pystr)
| StMarkdown (body : pyval)
| StSuccess (body : pystr)
| StError (body : pystr)
| StButton (label : pystr) (primary use_container_width : bool)
| StTextArea (label value : pystr) (height : Z) (placeholder : pystr)
| StChatInput (placeholder : pystr)
| StMultiselect (label : pystr) (options default : list pystr)
| StColumns (spec : pyval)
| StEnter (c : st_container)
| StExit (c : st_container).

(** What the widgets return in one run of the script. *)
Record gestures := {
  clicked : pystr -> bool;
  typed : pystr;
  submitted : option pystr;
  selected : list pystr
}.

(** How a run of a page ends: at its last line, with an exception, or at
    [st.rerun()]. *)
Inductive script (A : Type) :=
| Finished (a : A)
| Crashed (e : pyexn)
| Rerun.
Arguments Finished {A} a.
Arguments Crashed {A} e.
Arguments Rerun {A}.

(** [str(e)] *)
Definition exn_str (e : pyexn) : pystr :=
  match e with PyExn _ message => message end.

(** The [KeyError] of a missing string key: its text is [repr(key)], which
    is the key between apostrophes for a key of letters, digits and
    underscores, as is every key the pages subscript with (all of them
    literals of the source: [response], [num_sources], [sources], [answer],
    [severity], [name], [description], [check], [remediation],
    [related_columns]).  For a key that holds an
    apostrophe, a backslash or a character that is not printable, Python
    quotes or escapes differently and this text is not the one it gives. *)
Definition key_error (key : pystr) : pyexn :=
  PyExn (lit "KeyError") (lit "'" ++ key ++ lit "'").

(** [d[key]] on a dict. *)
Definition getitem (d : pydict) (key : pystr) : outcome pyval :=
  match dict_lookup d key with
  | Some v => Return v
  | None => Raise (key_error key)
  end.

(** [enumerate(items, start)] *)
Fixpoint enumerate {A} (start : Z) (items : list A) : list (Z * A) :=
  match items with
  | [] => []
  | x :: rest => (start, x) :: enumerate (start + 1) rest
  end.

(** [bool(v)] *)
Definition truthy (v : pyval) : bool :=
  match v with
  | PNone => false
  | PBool b => b
  | PInt z => negb (z =? 0)
  | PFloat (FFinite repr) =>
      negb (bool_decide (repr = lit "0.0" \/ repr = lit "-0.0"))
  | PFloat _ => true
  | PStr s => negb (bool_decide (s = []))
  | PList items => negb (bool_decide (items = []))
  | PDict entries => negb (bool_decide (entries = []))
  end.

(** The strings of a list when all its items are strings. *)
Fixpoint all_strings (items : list pyval) : option (list pystr) :=
  match items with
  | [] => Some []
  | PStr s :: rest => cons s <$> all_strings rest
  | _ :: rest => None
  end.

Section Pages.

Context {W : Type}.

(** What the widgets return in this run. *)
Variable browser : gestures.

(** Whether an exception is an instance of [Exception], and so is caught by
    [except Exception]. *)
Variable is_exception : pyexn -> bool.

(** [repr] of a list or of a dict. *)
Variable container_repr : pyval -> pystr.

(** The exception the interpreter raises when an operation ([items],
    subscript, slice, join) is applied to a value that does not support
    it. *)
Variable misuse : pystr -> pyval -> pyexn.

(** [str(v)], which is what an f-string writes for [{v}]. *)
Definition py_str (v : pyval) : pystr :=
  match v with
  | PNone => lit "None"
  | PBool true => lit "True"
  | PBool false => lit "False"
  | PInt z => Json.int_repr z
  | PFloat FNaN => lit "nan"
  | PFloat FInfinity => lit "inf"
  | PFloat FNegInfinity => lit "-inf"
  | PFloat (FFinite repr) => repr
  | PStr s => s
  | PList _ | PDict _ => container_repr v
  end.

(** [v[key]] for a string key. *)
Definition subscript (v : pyval) (key : pystr) : outcome pyval :=
  match v with
  | PDict entries => getitem entries key
  | _ => Raise (misuse (lit "subscript") v)
  end.

(** [v[:n]], as the list of the items a loop over it visits. *)
Definition slice_to (n : nat) (v : pyval) : outcome (list pyval) :=
  match v with
  | PList items => Return (take n items)
  | PStr s => Return (List.map (fun c => PStr [c]) (take n s))
  | _ => Raise (misuse (lit "slice") v)
  end.

(** [sep.join(v)] *)
Definition join_value (sep : pystr) (v : pyval) : outcome pystr :=
  match v with
  | PList items =>
      match all_strings items with
      | Some parts => Return (join sep parts)
      | None => Raise (misuse (lit "join") v)
      end
  | PStr s => Return (join sep (List.map (fun c => [c]) s))
  | PDict entries => Return (join sep (List.map fst entries))
  | _ => Raise (misuse (lit "join") v)
  end.

(** The state of a run: the services behind the checker, the session, and
    the calls made to [st] so far. *)
Record page := {
  backend : state W;
  session_state : session;
  rendered : list st_call
}.

Definition UI (A : Type) : Type := page -> script A * page.

Definition ui_ret {A} (a : A) : UI A := fun pg => (Finished a, pg).

Definition ui_bind {A B} (m : UI A) (f : A -> UI B) : UI B :=
  fun pg =>
    match m pg with
    | (Finished a, pg') => f a pg'
    | (Crashed e, pg') => (Crashed e, pg')
    | (Rerun, pg') => (Rerun, pg')
    end.

Notation "x <- m ;; f" := (ui_bind m (fun x => f))
  (at level 100, m at next level, right associativity).
Notation "m ;; f" := (ui_bind m (fun _ => f))
  (at level 100, right associativity).

(** A call to [st] that only displays. *)
Definition st (c : st_call) : UI unit :=
  fun pg =>
    (Finished tt,
     {| backend := backend pg; session_state := session_state pg;
        rendered := rendered pg ++ [c] |}).

(** [st.rerun()] *)
Definition rerun {A} : UI A := fun pg => (Rerun, pg).

(** Evaluating an expression that may raise. *)
Definition ui_eval {A} (r : outcome A) : UI A :=
  fun pg =>
    (match r with Return a => Finished a | Raise e => Crashed e end, pg).

(** A method of the checker, run on the services. *)
Definition on_backend {A} (m : M A) : UI A :=
  fun pg =>
    let (r, st') := m (backend pg) in
    (match r with Return a => Finished a | Raise e => Crashed e end,
     {| backend := st'; session_state := session_state pg;
        rendered := rendered pg |}).

(** [with c: body]; the block is left also when the body does not finish. *)
Definition within {A} (c : st_container) (body : UI A) : UI A :=
  fun pg =>
    let (r, pg') := (st (StEnter c) ;; body) pg in
    (r,
     {| backend := backend pg'; session_state := session_state pg';
        rendered := rendered pg' ++ [StExit c] |}).

(** [try: body except Exception as e: handler(e)] *)
Definition try_except {A} (body : UI A) (handler : pyexn -> UI A) : UI A :=
  fun pg =>
    match body pg with
    | (Crashed e, pg') =>
        if is_exception e then handler e pg' else (Crashed e, pg')
    | other => other
    end.

(** [for x in items: body(x)] *)
Fixpoint for_each {A} (items : list A) (body : A -> UI unit) : UI unit :=
  match items with
  | [] => ui_ret tt
  | x :: rest => body x ;; for_each rest body
  end.

(** [st.button(label, ...)] *)
Definition button (label : pystr) (primary wide : bool) : UI bool :=
  st (StButton label primary wide) ;; ui_ret (clicked browser label).

Definition get_session : UI session :=
  fun pg => (Finished (session_state pg), pg).

Definition set_session (s : session) : UI unit :=
  fun pg =>
    (Finished tt,
     {| backend := backend pg; session_state := s; rendered := rendered pg |}).

(** [st.session_state.compliance_query = query] *)
Definition set_compliance_query (query : pystr) : UI unit :=
  s <- get_session ;;
  set_session {| compliance_query := Some query; messages := messages s |}.

(** [st.session_state.messages = ms] *)
Definition set_messages (ms : list message) : UI unit :=
  s <- get_session ;;
  set_session {| compliance_query := compliance_query s;
                 messages := Some ms |}.

(** [st.session_state.messages], an [AttributeError] when it is not set. *)
Definition get_messages : UI (list message) :=
  s <- get_session ;;
  match messages s with
  | Some ms => ui_ret ms
  | None =>
      ui_eval (Raise (misuse (lit "st.session_state.messages") PNone))
  end.

(** [st.session_state.messages.append(m)] *)
Definition append_message (m : message) : UI unit :=
  ms <- get_messages ;; set_messages (ms ++ [m]).

(** [for i, source in enumerate(sources[:n], 1): st.write(f"{i}. {source}")] *)
Definition write_sources (n : nat) (sources : pyval) : UI unit :=
  items <- ui_eval (slice_to n sources) ;;
  for_each (enumerate 1 items)
    (fun numbered =>
       st (StWrite (Json.int_repr numbered.1 ++ lit ". "
                      ++ py_str numbered.2))).

(** One of the six suggestion buttons. *)
Definition suggest (label query : pystr) : UI unit :=
  pressed <- button label false false ;;
  if pressed then set_compliance_query query else ui_ret tt.

(** The block of [show_compliance_checker] that runs a check and displays
    its result. *)
Definition analyse (checker : ComplianceChecker W) (query : pystr) : UI unit :=
  within (Spinner ([128269%N] ++ lit " Analyzing contracts..."))
    (try_except
       (result <- on_backend (check_compliance checker query default_top_k) ;;
        st (StSuccess ([9989%N] ++ lit " Analysis Complete!")) ;;
        st (StSubheader ([128203%N] ++ lit " Compliance Analysis")) ;;
        response <- ui_eval (getitem result (lit "response")) ;;
        st (StMarkdown response) ;;
        within (Expander ([128196%N] ++ lit " View Sources"))
          (num_sources <- ui_eval (getitem result (lit "num_sources")) ;;
           st (StWrite (lit "**Documents Analyzed:** "
                          ++ py_str num_sources)) ;;
           st (StWrite (lit "**Source Files:**")) ;;
           sources <- ui_eval (getitem result (lit "sources")) ;;
           write_sources 5 sources))
       (fun e => st (StError ([10060%N] ++ lit " Error: " ++ exn_str e)))).

(** [show_compliance_checker(checker)] *)
Definition show_compliance_checker (checker : ComplianceChecker W) : UI unit :=
  st (StHeader ([128269%N] ++ lit " Compliance Checker")) ;;
  st (StWrite (lit "Ask questions about contract compliance and get detailed analysis.")) ;;
  st (StSubheader ([128161%N] ++ lit " Suggested Queries")) ;;
  st (StColumns (PInt 2)) ;;
  within (Column 0)
    (suggest (lit "Check Party Identification")
       (lit "Are the contracting parties clearly identified?") ;;
     suggest (lit "Check Effective Dates")
       (lit "Do contracts specify effective dates?") ;;
     suggest (lit "Check Termination Clauses")
       (lit "What are the termination provisions in the contracts?")) ;;
  within (Column 1)
    (suggest (lit "Check Governing Law")
       (lit "Are governing law clauses present?") ;;
     suggest (lit "Check Liability Caps")
       (lit "Do contracts define liability caps?") ;;
     suggest (lit "Check IP Ownership")
       (lit "Are IP ownership terms clearly defined?")) ;;
  st (StMarkdown (PStr (lit "---"))) ;;
  st (StSubheader ([9997; 65039]%N ++ lit " Custom Compliance Query")) ;;
  s <- get_session ;;
  st (StTextArea (lit "Enter your compliance question:")
        (default [] (compliance_query s)) 100
        (lit "e.g., Are renewal terms clearly specified in the contracts?")) ;;
  let query := typed browser in
  st (StColumns (PList [PInt 1; PInt 1; PInt 4])) ;;
  check_button <-
    within (Column 0)
      (button ([128269%N] ++ lit " Check Compliance") true true) ;;
  clear_button <-
    within (Column 1) (button ([128465; 65039]%N ++ lit " Clear") false true) ;;
  (if clear_button : bool then set_compliance_query [] ;; rerun
   else ui_ret tt) ;;
  if check_button && truthy (PStr query) then analyse checker query
  else ui_ret tt.

(** The part of [show_qa_system] that answers a submitted question. *)
Definition answer_in_chat (checker : ComplianceChecker W)
    (question : pystr) : UI unit :=
  append_message {| role := lit "user"; content := PStr question |} ;;
  within (ChatMessage (lit "user")) (st (StMarkdown (PStr question))) ;;
  within (ChatMessage (lit "assistant"))
    (within (Spinner (lit "Thinking..."))
       (try_except
          (result <-
             on_backend (answer_question checker question default_top_k) ;;
           response <- ui_eval (getitem result (lit "answer")) ;;
           st (StMarkdown response) ;;
           within (Expander ([128218%N] ++ lit " Sources"))
             (sources <- ui_eval (getitem result (lit "sources")) ;;
              write_sources 3 sources) ;;
           append_message {| role := lit "assistant"; content := response |})
          (fun e =>
             let error_msg := [10060%N] ++ lit " Error: " ++ exn_str e in
             st (StError error_msg) ;;
             append_message
               {| role := lit "assistant"; content := PStr error_msg |}))).

(** [show_qa_system(checker)] *)
Definition show_qa_system (checker : ComplianceChecker W) : UI unit :=
  st (StHeader ([128172%N] ++ lit " Contract Q&A System")) ;;
  st (StWrite (lit "Ask any question about the contracts and get instant answers.")) ;;
  s <- get_session ;;
  (match messages s with
   | None => set_messages []
   | Some _ => ui_ret tt
   end) ;;
  history <- get_messages ;;
  for_each history
    (fun message =>
       within (ChatMessage (role message))
         (st (StMarkdown (content message)))) ;;
  st (StChatInput (lit "Ask a question about the contracts...")) ;;
  (match submitted browser with
   | Some question =>
       if truthy (PStr question) then answer_in_chat checker question
       else ui_ret tt
   | None => ui_ret tt
   end) ;;
  clear <- button ([128465; 65039]%N ++ lit " Clear Chat History") false false ;;
  if clear : bool then set_messages [] ;; rerun else ui_ret tt.

(** [x in choices], for a list of strings. *)
Definition is_in (v : pyval) (choices : list pystr) : bool :=
  match v with
  | PStr s => bool_decide (s ∈ choices)
  | _ => false
  end.

(** [severity_color[v]] *)
Definition severity_color (v : pyval) : outcome pystr :=
  match v with
  | PStr s =>
      if decide (s = lit "HIGH") then Return [128308%N]
      else if decide (s = lit "MEDIUM") then Return [128993%N]
      else if decide (s = lit "LOW") then Return [128994%N]
      else Raise (key_error s)
  | _ => Raise (misuse (lit "severity_color") v)
  end.

(** The body of the loop of [show_rules_explorer], for one rule. *)
Definition show_rule (severity_filter : list pystr) (rule_id : pystr)
    (rule : pyval) : UI unit :=
  severity <- ui_eval (subscript rule (lit "severity")) ;;
  if is_in severity severity_filter then
    severity <- ui_eval (subscript rule (lit "severity")) ;;
    icon <- ui_eval (severity_color severity) ;;
    name <- ui_eval (subscript rule (lit "name")) ;;
    within (Expander (icon ++ lit " " ++ rule_id ++ lit ": " ++ py_str name))
      (description <- ui_eval (subscript rule (lit "description")) ;;
       st (StWrite (lit "**Description:** " ++ py_str description)) ;;
       severity <- ui_eval (subscript rule (lit "severity")) ;;
       st (StWrite (lit "**Severity:** " ++ py_str severity)) ;;
       check <- ui_eval (subscript rule (lit "check")) ;;
       st (StWrite (lit "**Check:** " ++ py_str check)) ;;
       remediation <- ui_eval (subscript rule (lit "remediation")) ;;
       st (StWrite (lit "**Remediation:** " ++ py_str remediation)) ;;
       related <- ui_eval (subscript rule (lit "related_columns")) ;;
       if truthy related then
         related <- ui_eval (subscript rule (lit "related_columns")) ;;
         joined <- ui_eval (join_value (lit ", ") related) ;;
         st (StWrite (lit "**Related Columns:** " ++ joined))
       else ui_ret tt)
  else ui_ret tt.

(** [compliance_rules.items()] *)
Definition items_of (v : pyval) : outcome (list (pystr * pyval)) :=
  match v with
  | PDict entries => Return entries
  | _ => Raise (misuse (lit "items") v)
  end.

(** [show_rules_explorer(compliance_rules)] *)
Definition show_rules_explorer (compliance_rules : pyval) : UI unit :=
  st (StHeader ([128203%N] ++ lit " Compliance Rules Explorer")) ;;
  st (StMultiselect (lit "Filter by Severity")
        [lit "HIGH"; lit "MEDIUM"; lit "LOW"]
        [lit "HIGH"; lit "MEDIUM"; lit "LOW"]) ;;
  let severity_filter := selected browser in
  entries <- ui_eval (items_of compliance_rules) ;;
  for_each entries (fun entry => show_rule severity_filter entry.1 entry.2).

End Pages.

Arguments page W : clear implicits.

(** ** What a page has displayed *)

(** The calls a run of a page adds to those already made. *)
Definition new_rendered {W A} (m : UI A) (pg : page W) : list st_call :=
  drop (length (rendered pg)) (rendered (m pg).2).

(** The calls that display a chat history. *)
Definition history_render (ms : list message) : list st_call :=
  List.concat
    (List.map (fun m => [ StEnter (ChatMessage (role m));
                          StMarkdown (content m);
                          StExit (ChatMessage (role m)) ]) ms).

(** The numbered lines written for a list of sources. *)
Definition source_lines (container_repr : pyval -> pystr)
    (items : list pyval) : list st_call :=
  List.map
    (fun numbered : Z * pyval =>
       StWrite (Json.int_repr numbered.1 ++ lit ". "
                  ++ py_str container_repr numbered.2))
    (enumerate 1 items).

(** The text shown for a caught exception. *)
Definition error_text (e : pyexn) : pystr :=
  [10060%N] ++ lit " Error: " ++ exn_str e.

(** The bodies of the [st.write] calls, the texts of the [st.error] calls
    and the labels of the expanders among some calls. *)
Definition written (cs : list st_call) : list pystr :=
  omap (fun c => match c with StWrite body => Some body | _ => None end) cs.

Definition errors_shown (cs : list st_call) : list pystr :=
  omap (fun c => match c with StError body => Some body | _ => None end) cs.

Definition expanders (cs : list st_call) : list pystr :=
  omap (fun c => match c with
                 | StEnter (Expander label) => Some label
                 | _ => None
                 end) cs.

(** The two chat messages of one exchange. *)
Definition exchange (question : pystr) (reply : pyval) : list message :=
  [ {| role := lit "user"; content := PStr question |};
    {| role := lit "assistant"; content := reply |} ].

(** A field of a rule record, [None] when it is missing. *)
Definition rule_field (rule : pyval) (key : pystr) : pyval :=
  match rule with
  | PDict fields => default PNone (dict_lookup fields key)
  | _ => PNone
  end.

(** A rule record the explorer can display: the record has the six fields,
    its severity is one of the three, and its related columns are a list of
    strings. *)
Definition well_formed_rule (rule : pyval) : bool :=
  Spec.valid_rule rule
  && match rule_field rule (lit "related_columns") with
     | PList columns => bool_decide (is_Some (all_strings columns))
     | _ => false
     end.

(** The icon of a severity. *)
Definition severity_icon (severity : pyval) : pystr :=
  match severity with
  | PStr s =>
      if decide (s = lit "HIGH") then [128308%N]
      else if decide (s = lit "MEDIUM") then [128993%N]
      else [128994%N]
  | _ => []
  end.

(** The label of the expander of a rule. *)
Definition expander_label (container_repr : pyval -> pystr)
    (entry : pystr * pyval) : pystr :=
  severity_icon (rule_field entry.2 (lit "severity")) ++ lit " " ++ entry.1
    ++ lit ": " ++ py_str container_repr (rule_field entry.2 (lit "name")).

(** What the explorer displays for one rule. *)
Definition rule_display (container_repr : pyval -> pystr)
    (severity_filter : list pystr) (entry : pystr * pyval) : list st_call :=
  if is_in (rule_field entry.2 (lit "severity")) severity_filter then
    [ StEnter (Expander (expander_label container_repr entry));
      StWrite (lit "**Description:** "
                 ++ py_str container_repr
                      (rule_field entry.2 (lit "description")));
      StWrite (lit "**Severity:** "
                 ++ py_str container_repr
                      (rule_field entry.2 (lit "severity")));
      StWrite (lit "**Check:** "
                 ++ py_str container_repr (rule_field entry.2 (lit "check")));
      StWrite (lit "**Remediation:** "
                 ++ py_str container_repr
                      (rule_field entry.2 (lit "remediation"))) ]
    ++ match rule_field entry.2 (lit "related_columns") with
       | PList (c :: columns) =>
           [ StWrite (lit "**Related Columns:** "
                        ++ join (lit ", ")
                             (default [] (all_strings (c :: columns)))) ]
       | _ => []
       end
    ++ [ StExit (Expander (expander_label container_repr entry)) ]
  else [].

(** ** A visit

    A browser in which nothing is clicked, typed or selected unless said
    otherwise, and an interpreter for which every exception but
    [KeyboardInterrupt] is an [Exception]. *)
Module Visit.

Definition idle : gestures :=
  {| clicked := fun _ => false; typed := []; submitted := None;
     selected := [lit "HIGH"; lit "MEDIUM"; lit "LOW"] |}.

Definition asking (question : pystr) : gestures :=
  {| clicked := fun _ => false; typed := question;
     submitted := Some question;
     selected := [lit "HIGH"] |}.

Definition checking (question : pystr) : gestures :=
  {| clicked := fun label =>
       bool_decide (label = [128269%N] ++ lit " Check Compliance");
     typed := question; submitted := None; selected := [] |}.

Definition clearing (question : pystr) : gestures :=
  {| clicked := fun _ => true; typed := question;
     submitted := Some question; selected := [] |}.

Definition is_exception (e : pyexn) : bool :=
  match e with
  | PyExn cls _ => negb (bool_decide (cls = lit "KeyboardInterrupt"))
  end.

Definition container_repr (v : pyval) : pystr := lit "[...]".

Definition misuse (operation : pystr) (v : pyval) : pyexn :=
  PyExn (lit "TypeError") operation.

Definition first_visit : page nat :=
  {| backend := Scenario.start;
     session_state := {| compliance_query := None; messages := None |};
     rendered := [] |}.

Definition earlier : list message :=
  exchange (lit "Who are the parties?") (PStr (lit "Acme and Bolt."))
  ++ exchange (lit "Until when?") (PStr (lit "Until 2027.")).

Definition later_visit : page nat :=
  {| backend := Scenario.start;
     session_state := {| compliance_query := Some (lit "Old question");
                         messages := Some earlier |};
     rendered := [] |}.

Definition rule_R2 : pyval :=
  PDict [ (lit "name", PStr (lit "Term"));
          (lit "description", PStr (lit "A term must be stated"));
          (lit "severity", PStr (lit "LOW"));
          (lit "check", PStr (lit "A term clause exists"));
          (lit "remediation", PStr (lit "Add a term clause"));
          (lit "related_columns", PList []) ].

Definition two_rules : pyval :=
  PDict [ (lit "R1", Scenario.rule_R1); (lit "R2", rule_R2) ].

Definition rules_with_gap : pyval :=
  PDict [ (lit "R1", Scenario.rule_R1);
          (lit "R9", PDict [ (lit "name", PStr (lit "Broken")) ]) ].

End Visit.

(** ** Failing services

    An index that cannot be reached, a model whose response carries no
    text, and a passage whose [filename] is [None]. *)
Module Outages.

Definition index_error : pyexn :=
  PyExn (lit "RuntimeError") (lit "index not loaded").

Definition offline_index : VectorStore nat :=
  {| similarity_search := fun _ _ w => (Raise index_error, w) |}.

Definition blocked_error : pyexn :=
  PyExn (lit "ValueError") (lit "response has no text").

Definition blocked_llm : LLM nat :=
  {| generate_content := fun _ w =>
       (Return {| text := Raise blocked_error |}, S w) |}.

Definition offline_checker : ComplianceChecker nat :=
  {| vectorstore := offline_index; llm := Scenario.stub_llm;
     compliance_rules := Scenario.rules |}.

Definition blocked_checker : ComplianceChecker nat :=
  {| vectorstore := Scenario.index; llm := blocked_llm;
     compliance_rules := Scenario.rules |}.

Definition passage_null_name : Document :=
  {| page_content := lit "Fees are due in 30 days.";
     metadata := {[ lit "filename" := PNone ]} |}.

Definition null_index : VectorStore nat :=
  {| similarity_search := fun _ _ w =>
       (Return [passage_null_name; Scenario.passage_c1], w) |}.

Definition null_checker : ComplianceChecker nat :=
  {| vectorstore := null_index; llm := Scenario.stub_llm;
     compliance_rules := Scenario.rules |}.

Definition interrupt : pyexn := PyExn (lit "KeyboardInterrupt") [].

Definition interrupted_llm : LLM nat :=
  {| generate_content := fun _ w => (Raise interrupt, S w) |}.

Definition interrupted_checker : ComplianceChecker nat :=
  {| vectorstore := Scenario.index; llm := interrupted_llm;
     compliance_rules := Scenario.rules |}.

End Outages.

(** * Properties *)

(** Two different literals are different strings. *)
Ltac lit_neq :=
  let H := fresh in intros H; vm_compute in H; discriminate H.

(** ** Strings *)
Section Strings.

Implicit Types (s sub sep : pystr) (parts : list pystr).

Lemma occurs_in_refl s : occurs_in s s.
Proof. exists [], []. by rewrite app_nil_r. Qed.

Lemma occurs_in_trans sub s t :
  occurs_in sub s -> occurs_in s t -> occurs_in sub t.
Proof.
  intros (a & b & ->) (c & d & ->).
  exists (c ++ a), (b ++ d). by rewrite !app_assoc.
Qed.

Lemma occurs_in_app_l sub s t : occurs_in sub s -> occurs_in sub (s ++ t).
Proof.
  intros (a & b & ->). exists a, (b ++ t). by rewrite !app_assoc.
Qed.

Lemma occurs_in_app_r sub s t : occurs_in sub t -> occurs_in sub (s ++ t).
Proof.
  intros (a & b & ->). exists (s ++ a), b. by rewrite !app_assoc.
Qed.

Lemma join_cons sep p parts :
  parts <> [] -> join sep (p :: parts) = p ++ sep ++ join sep parts.
Proof. by destruct parts. Qed.

(** Every joined part occurs in the join, untouched. *)
Lemma occurs_in_join sep parts p :
  p ∈ parts -> occurs_in p (join sep parts).
Proof.
  induction parts as [|p0 rest IH]; [by intros ?%elem_of_nil|].
  destruct rest as [|p1 rest].
  - intros ->%list_elem_of_singleton. apply occurs_in_refl.
  - rewrite join_cons by done.
    intros [->|Hin]%elem_of_cons.
    + apply occurs_in_app_l, occurs_in_refl.
    + by apply occurs_in_app_r, occurs_in_app_r, IH.
Qed.


End Strings.

(** ** The JSON text of a dict *)
Section JsonFacts.

Import Json.

(** The encoder on small values. *)
Example dumps_empty_dict : dumps (PDict []) = lit "{}".
Proof. reflexivity. Qed.

Example dumps_list :
  dumps (PList [PInt 1; PInt (-12); PNone; PBool true; PList []]) = lit "[
  1,
  -12,
  null,
  true,
  []
]".
Proof. by vm_compute. Qed.

Example dumps_nested :
  dumps (PDict [ (lit "a", PDict [ (lit "b", PList [PInt 0]) ]);
                 (lit "c", PFloat FNaN) ])
  = [123; 10; 32; 32; 34; 97; 34; 58; 32; 123; 10; 32; 32; 32; 32; 34; 98;
     34; 58; 32; 91; 10; 32; 32; 32; 32; 32; 32; 48; 10; 32; 32; 32; 32; 93;
     10; 32; 32; 125; 44; 10; 32; 32; 34; 99; 34; 58; 32; 78; 97; 78; 10;
     125]%N.
Proof. by vm_compute. Qed.

(** Escapes: e-acute, a newline, a double quote, DEL, and a character
    outside the basic plane, written as a surrogate pair. *)
Example escapes :
  encode_basestring_ascii [233; 10; 34; 127; 128512]%N
  = [34%N] ++ lit "\u00e9\n\" ++ [34%N] ++ lit "\u007f\ud83d\ude00" ++ [34%N].
Proof. by vm_compute. Qed.




End JsonFacts.

(** ** How a run unfolds

    Both methods make the same three steps; the lemmas below give the
    outcome of a run from the outcomes of the outside calls. *)
Section Runs.

Context {W : Type}.
Implicit Types (self : ComplianceChecker W) (st : state W).
Implicit Types (docs : list Document) (q : pystr) (k : Z).
Implicit Types (model : LLM W) (w : W).

Lemma check_compliance_run self q k st :
  check_compliance self q k st =
  match similarity_search (vectorstore self) q k (world st) with
  | (Raise e, w1) =>
      (Raise e, {| world := w1; calls := calls st ++ [CallSearch q k] |})
  | (Return docs, w1) =>
      finish (llm self)
        (compliance_prompt (compliance_rules self) (context_of docs) q)
        (fun t => compliance_result q t docs)
        (calls st ++ [CallSearch q k]) w1
  end.
Proof.
  unfold check_compliance, finish, bind, perform, eval, ret; simpl.
  destruct (similarity_search _ q k (world st)) as [[docs|e] w1]; simpl;
    [|reflexivity].
  destruct (generate_content _ _ w1) as [[resp|e] w2]; simpl;
    [|reflexivity].
  destruct (text resp); reflexivity.
Qed.

Lemma answer_question_run self q k st :
  answer_question self q k st =
  match similarity_search (vectorstore self) q k (world st) with
  | (Raise e, w1) =>
      (Raise e, {| world := w1; calls := calls st ++ [CallSearch q k] |})
  | (Return docs, w1) =>
      finish (llm self) (qa_prompt (context_of docs) q)
        (fun t => qa_result q t docs)
        (calls st ++ [CallSearch q k]) w1
  end.
Proof.
  unfold answer_question, finish, bind, perform, eval, ret; simpl.
  destruct (similarity_search _ q k (world st)) as [[docs|e] w1]; simpl;
    [|reflexivity].
  destruct (generate_content _ _ w1) as [[resp|e] w2]; simpl;
    [|reflexivity].
  destruct (text resp); reflexivity.
Qed.

(** Whatever the model does, [finish] has called it once on [prompt]. *)
Lemma finish_calls model prompt pack log w1 :
  calls (finish model prompt pack log w1).2 = log ++ [CallGenerate prompt].
Proof.
  unfold finish.
  destruct (generate_content model prompt w1) as [[resp|e] w2];
    [destruct (text resp)|]; reflexivity.
Qed.

(** A value returned by [finish] is [pack] of the text the model gave. *)
Lemma finish_returns model prompt pack log w1 r st' :
  finish model prompt pack log w1 = (Return r, st') ->
  exists resp t,
    generate_content model prompt w1 = (Return resp, world st')
    /\ text resp = Return t /\ r = pack t
    /\ calls st' = log ++ [CallGenerate prompt].
Proof.
  unfold finish.
  destruct (generate_content model prompt w1) as [[resp|e] w2];
    [destruct (text resp) as [t|e] eqn:Ht|]; intros H; inversion H; subst.
  exists resp, t. simpl. auto.
Qed.

(** An exception leaving [finish] was raised by the model, or by reading
    the text of its response. *)
Lemma finish_raises model prompt pack log w1 e st' :
  finish model prompt pack log w1 = (Raise e, st') ->
  generate_content model prompt w1 = (Raise e, world st')
  \/ exists resp, generate_content model prompt w1 = (Return resp, world st')
                  /\ text resp = Raise e.
Proof.
  unfold finish.
  destruct (generate_content model prompt w1) as [[resp|e'] w2];
    [destruct (text resp) as [t|e'] eqn:Ht|]; intros H; inversion H; subst;
    simpl; eauto.
Qed.

Lemma new_calls_app {A} (m : @M W A) st added :
  calls (m st).2 = calls st ++ added -> new_calls m st = added.
Proof.
  unfold new_calls. intros ->. by rewrite drop_app_length.
Qed.

(** Once retrieval has succeeded, a compliance check makes exactly two
    calls: the search, and one generation on the compliance prompt. *)
Lemma check_compliance_calls self q k st docs w1 :
  similarity_search (vectorstore self) q k (world st) = (Return docs, w1) ->
  new_calls (check_compliance self q k) st =
    [ CallSearch q k;
      CallGenerate
        (compliance_prompt (compliance_rules self) (context_of docs) q) ].
Proof.
  intros Hs. apply new_calls_app.
  rewrite check_compliance_run, Hs, finish_calls.
  by rewrite <- app_assoc.
Qed.

Lemma answer_question_calls self q k st docs w1 :
  similarity_search (vectorstore self) q k (world st) = (Return docs, w1) ->
  new_calls (answer_question self q k) st =
    [ CallSearch q k; CallGenerate (qa_prompt (context_of docs) q) ].
Proof.
  intros Hs. apply new_calls_app.
  rewrite answer_question_run, Hs, finish_calls.
  by rewrite <- app_assoc.
Qed.

(** A returned compliance result is the packaged text of the model. *)
Lemma check_compliance_returns self q k st r st' :
  check_compliance self q k st = (Return r, st') ->
  exists docs t, r = compliance_result q t docs
    /\ exists w1, similarity_search (vectorstore self) q k (world st)
                  = (Return docs, w1).
Proof.
  rewrite check_compliance_run.
  destruct (similarity_search _ q k (world st)) as [[docs|e] w1];
    [|discriminate].
  intros (resp & t & _ & _ & -> & _)%finish_returns. eauto.
Qed.

Lemma answer_question_returns self q k st r st' :
  answer_question self q k st = (Return r, st') ->
  exists docs t, r = qa_result q t docs
    /\ exists w1, similarity_search (vectorstore self) q k (world st)
                  = (Return docs, w1).
Proof.
  rewrite answer_question_run.
  destruct (similarity_search _ q k (world st)) as [[docs|e] w1];
    [|discriminate].
  intros (resp & t & _ & _ & -> & _)%finish_returns. eauto.
Qed.

(** When retrieval and generation succeed, so does the method. *)
Lemma check_compliance_succeeds self q k st docs w1 resp w2 t :
  similarity_search (vectorstore self) q k (world st) = (Return docs, w1) ->
  generate_content (llm self)
    (compliance_prompt (compliance_rules self) (context_of docs) q) w1
    = (Return resp, w2) ->
  text resp = Return t ->
  check_compliance self q k st =
    (Return (compliance_result q t docs),
     {| world := w2;
        calls := calls st ++
          [ CallSearch q k;
            CallGenerate
              (compliance_prompt (compliance_rules self) (context_of docs) q) ]
     |}).
Proof.
  intros Hs Hg Ht. rewrite check_compliance_run, Hs. unfold finish.
  rewrite Hg, Ht. by rewrite <- app_assoc.
Qed.

Lemma answer_question_succeeds self q k st docs w1 resp w2 t :
  similarity_search (vectorstore self) q k (world st) = (Return docs, w1) ->
  generate_content (llm self) (qa_prompt (context_of docs) q) w1
    = (Return resp, w2) ->
  text resp = Return t ->
  answer_question self q k st =
    (Return (qa_result q t docs),
     {| world := w2;
        calls := calls st ++
          [ CallSearch q k; CallGenerate (qa_prompt (context_of docs) q) ] |}).
Proof.
  intros Hs Hg Ht. rewrite answer_question_run, Hs. unfold finish.
  rewrite Hg, Ht. by rewrite <- app_assoc.
Qed.

End Runs.

(** The scenario of the specification: one rule, one passage from
    [c1.txt], a model that answers a fixed text. *)
Example scenario_check_compliance :
  (check_compliance Scenario.checker Scenario.query 1 Scenario.start).1
  = Return [ (lit "query", PStr (lit "Are the contracting parties identified?"));
             (lit "response", PStr (lit "1. COMPLIANT..."));
             (lit "sources", PList [PStr (lit "c1.txt")]);
             (lit "num_sources", PInt 1) ].
Proof. reflexivity. Qed.

(** ** The result dicts *)
Section Results.

Implicit Types (q t key : pystr) (docs : list Document) (d : pydict).

Lemma dict_lookup_here d key v : dict_lookup ((key, v) :: d) key = Some v.
Proof. simpl. by rewrite decide_True. Qed.

Lemma dict_lookup_skip d k v key :
  k <> key -> dict_lookup ((k, v) :: d) key = dict_lookup d key.
Proof. intros. simpl. by rewrite decide_False. Qed.

Lemma compliance_result_keys q t docs :
  dict_keys (compliance_result q t docs) =
    [ lit "query"; lit "response"; lit "sources"; lit "num_sources" ].
Proof. reflexivity. Qed.

Lemma compliance_result_sources q t docs :
  dict_lookup (compliance_result q t docs) (lit "sources")
  = Some (PList (List.map source_of docs)).
Proof.
  unfold compliance_result.
  rewrite !dict_lookup_skip by lit_neq. apply dict_lookup_here.
Qed.

Lemma compliance_result_num_sources q t docs :
  dict_lookup (compliance_result q t docs) (lit "num_sources")
  = Some (PInt (Z.of_nat (length docs))).
Proof.
  unfold compliance_result.
  rewrite !dict_lookup_skip by lit_neq. apply dict_lookup_here.
Qed.

Lemma qa_result_keys q t docs :
  dict_keys (qa_result q t docs) =
    [ lit "question"; lit "answer"; lit "sources" ].
Proof. reflexivity. Qed.

Lemma qa_result_sources q t docs :
  dict_lookup (qa_result q t docs) (lit "sources")
  = Some (PList (List.map source_of docs)).
Proof.
  unfold qa_result.
  rewrite !dict_lookup_skip by lit_neq. apply dict_lookup_here.
Qed.

Lemma qa_result_num_sources q t docs :
  dict_lookup (qa_result q t docs) (lit "num_sources") = None.
Proof.
  unfold qa_result. by rewrite !dict_lookup_skip by lit_neq.
Qed.

(** The [i]-th source is read off the [i]-th passage. *)
Lemma sources_lookup docs i doc :
  docs !! i = Some doc ->
  List.map source_of docs !! i = Some (source_of doc).
Proof.
  revert i. induction docs as [|d docs IH]; intros [|i]; simpl; try done.
  - by intros [= ->].
  - apply IH.
Qed.

Lemma source_of_unknown doc :
  metadata doc !! lit "filename" = None ->
  source_of doc = PStr (lit "Unknown").
Proof. unfold source_of. by intros ->. Qed.

End Results.

(** ** Where the pieces of a prompt sit *)
Lemma query_in_compliance_prompt rules context q :
  occurs_in q (compliance_prompt rules context q).
Proof.
  unfold compliance_prompt.
  do 5 apply occurs_in_app_r. apply occurs_in_app_l, occurs_in_refl.
Qed.

Lemma context_in_compliance_prompt rules context q :
  occurs_in context (compliance_prompt rules context q).
Proof.
  unfold compliance_prompt.
  do 3 apply occurs_in_app_r. apply occurs_in_app_l, occurs_in_refl.
Qed.

Lemma rules_in_compliance_prompt rules context q :
  occurs_in (Json.dumps rules) (compliance_prompt rules context q).
Proof.
  unfold compliance_prompt.
  apply occurs_in_app_r, occurs_in_app_l, occurs_in_refl.
Qed.

Lemma question_in_qa_prompt context q : occurs_in q (qa_prompt context q).
Proof.
  unfold qa_prompt.
  do 3 apply occurs_in_app_r. apply occurs_in_app_l, occurs_in_refl.
Qed.

Lemma context_in_qa_prompt context q : occurs_in context (qa_prompt context q).
Proof.
  unfold qa_prompt.
  apply occurs_in_app_r, occurs_in_app_l, occurs_in_refl.
Qed.

Lemma content_in_context docs doc :
  doc ∈ docs -> occurs_in (page_content doc) (context_of docs).
Proof.
  intros Hin. unfold context_of. apply occurs_in_join.
  apply list_elem_of_In, in_map, list_elem_of_In, Hin.
Qed.

(** * Loading the rules *)

(** A rule file whose only record has an unknown severity and lacks four of
    the six fields fails the validation the specification describes, and
    yet the constructor returns a checker holding it, which then answers
    queries with it. *)
Lemma init_accepts_invalid_rule :
  Spec.valid_source Scenario.bad_rules = false
  /\ exists c st',
       init Scenario.files Scenario.index Scenario.stub_llm
         Scenario.bad_rules_path Scenario.start = (Return c, st')
       /\ compliance_rules c = Scenario.bad_rules
       /\ exists r st'',
            check_compliance c Scenario.query 1 st' = (Return r, st'')
            /\ occurs_in (Json.dumps Scenario.bad_rules)
                 (match calls st'' !! 2%nat with
                  | Some (CallGenerate prompt) => prompt
                  | _ => []
                  end).
Proof.
  split; [by vm_compute|].
  exists {| vectorstore := Scenario.index; llm := Scenario.stub_llm;
            compliance_rules := Scenario.bad_rules |},
         {| world := 0%nat; calls := [CallLoadRules Scenario.bad_rules_path] |}.
  split; [reflexivity|]. split; [reflexivity|].
  exists (compliance_result Scenario.query (lit "1. COMPLIANT...")
            [Scenario.passage_c1]),
         {| world := 1%nat;
            calls := [ CallLoadRules Scenario.bad_rules_path;
                       CallSearch Scenario.query 1;
                       CallGenerate
                         (compliance_prompt Scenario.bad_rules
                            (context_of [Scenario.passage_c1])
                            Scenario.query) ] |}.
  split; [reflexivity|].
  apply rules_in_compliance_prompt.
Qed.

(** C2, as the code has it: the constructor checks nothing about the rule
    records.  It reads and parses the file once.  If that returns a value,
    whatever it is, no exception is raised and the checker is built with
    that value as its registry; every compliance check of that checker
    whose search returns then makes its one generation on a prompt that
    carries the JSON text of that value as it is.  If reading or parsing
    raises, the same exception leaves the constructor, and that is the only
    way the constructor fails. *)
Theorem init_stores_what_is_loaded {W}
    (load_json_file : pystr -> W -> outcome pyval * W)
    (store : VectorStore W) (model : LLM W) (rules_path : pystr)
    (st : state W) :
  init load_json_file store model rules_path st =
    match load_json_file rules_path (world st) with
    | (Return rules, w') =>
        (Return {| vectorstore := store; llm := model;
                   compliance_rules := rules |},
         {| world := w'; calls := calls st ++ [CallLoadRules rules_path] |})
    | (Raise e, w') =>
        (Raise e,
         {| world := w'; calls := calls st ++ [CallLoadRules rules_path] |})
    end
  /\ forall rules w',
       load_json_file rules_path (world st) = (Return rules, w') ->
       forall (q : pystr) (k : Z) (st1 : state W) (docs : list Document)
              (w1 : W),
         similarity_search store q k (world st1) = (Return docs, w1) ->
         new_calls
           (check_compliance
              {| vectorstore := store; llm := model;
                 compliance_rules := rules |} q k) st1
         = [ CallSearch q k;
             CallGenerate (compliance_prompt rules (context_of docs) q) ]
         /\ occurs_in (Json.dumps rules)
              (compliance_prompt rules (context_of docs) q).
Proof.
  split.
  - unfold init, bind, perform, ret.
    by destruct (load_json_file rules_path (world st)) as [[rules|e] w'].
  - intros rules w' _ q k st1 docs w1 Hs. split.
    + apply (check_compliance_calls
               {| vectorstore := store; llm := model;
                  compliance_rules := rules |} q k st1 docs w1 Hs).
    + apply rules_in_compliance_prompt.
Qed.

Lemma init_stores_what_is_loaded_witness :
  init Scenario.files Scenario.index Scenario.stub_llm
    Scenario.bad_rules_path Scenario.start =
    (Return {| vectorstore := Scenario.index; llm := Scenario.stub_llm;
               compliance_rules := Scenario.bad_rules |},
     {| world := 0%nat; calls := [CallLoadRules Scenario.bad_rules_path] |})
  /\ new_calls
       (check_compliance
          {| vectorstore := Scenario.index; llm := Scenario.stub_llm;
             compliance_rules := Scenario.bad_rules |} Scenario.query 1)
       {| world := 0%nat; calls := [CallLoadRules Scenario.bad_rules_path] |}
     = [ CallSearch Scenario.query 1;
         CallGenerate
           (compliance_prompt Scenario.bad_rules
              (context_of [Scenario.passage_c1]) Scenario.query) ]
  /\ occurs_in (Json.dumps Scenario.bad_rules)
       (compliance_prompt Scenario.bad_rules
          (context_of [Scenario.passage_c1]) Scenario.query).
Proof.
  split.
  - exact (proj1 (init_stores_what_is_loaded Scenario.files Scenario.index
                    Scenario.stub_llm Scenario.bad_rules_path
                    Scenario.start)).
  - refine (proj2 (init_stores_what_is_loaded Scenario.files Scenario.index
                     Scenario.stub_llm Scenario.bad_rules_path
                     Scenario.start)
              Scenario.bad_rules 0%nat _ Scenario.query 1
              {| world := 0%nat;
                 calls := [CallLoadRules Scenario.bad_rules_path] |}
              [Scenario.passage_c1] 0%nat _); reflexivity.
Defined.

(** * The compliance check and the question answering *)

(** C1: whenever [check_compliance(q, k)] returns, the result's
    [num_sources] equals [len(sources)]; it is the number of passages the
    vector store returned, so it is at most [k] when the store returned at
    most [k] passages. *)
Theorem check_compliance_source_count {W} (self : ComplianceChecker W)
    (q : pystr) (k : Z) (st : state W) (docs : list Document) (w1 : W)
    (r : pydict) (st' : state W) :
  similarity_search (vectorstore self) q k (world st) = (Return docs, w1) ->
  Z.of_nat (length docs) <= k ->
  check_compliance self q k st = (Return r, st') ->
  exists sources num_sources,
    dict_lookup r (lit "sources") = Some (PList sources)
    /\ dict_lookup r (lit "num_sources") = Some (PInt num_sources)
    /\ num_sources = Z.of_nat (length sources)
    /\ num_sources = Z.of_nat (length docs)
    /\ num_sources <= k.
Proof.
  intros Hs Hk (docs' & t & -> & w1' & Hs')%check_compliance_returns.
  assert (docs' = docs) as -> by congruence.
  exists (List.map source_of docs), (Z.of_nat (length docs)).
  rewrite compliance_result_sources, compliance_result_num_sources.
  by rewrite length_map.
Qed.

Lemma check_compliance_source_count_witness :
  exists sources num_sources,
    dict_lookup
      (compliance_result Scenario.query (lit "1. COMPLIANT...")
         [Scenario.passage_c1; Scenario.passage_anonymous])
      (lit "sources") = Some (PList sources)
    /\ dict_lookup
         (compliance_result Scenario.query (lit "1. COMPLIANT...")
            [Scenario.passage_c1; Scenario.passage_anonymous])
         (lit "num_sources") = Some (PInt num_sources)
    /\ num_sources = Z.of_nat (length sources)
    /\ num_sources = Z.of_nat (length [Scenario.passage_c1; Scenario.passage_anonymous])
    /\ num_sources <= 2.
Proof.
  apply (check_compliance_source_count Scenario.checker Scenario.query 2
           Scenario.start [Scenario.passage_c1; Scenario.passage_anonymous]
           0%nat _
           {| world := 1%nat;
              calls := [ CallSearch Scenario.query 2;
                         CallGenerate
                           (compliance_prompt Scenario.rules
                              (context_of [Scenario.passage_c1;
                                           Scenario.passage_anonymous])
                              Scenario.query) ] |}).
  - reflexivity.
  - simpl. lia.
  - reflexivity.
Defined.

(** C3: when the generation call raises, [check_compliance] raises the same
    exception: no result is returned, the model has been called exactly
    once, and nothing is called after it. *)
Theorem generation_failure_propagates {W} (self : ComplianceChecker W)
    (q : pystr) (k : Z) (st : state W) (docs : list Document) (w1 w2 : W)
    (e : pyexn) :
  similarity_search (vectorstore self) q k (world st) = (Return docs, w1) ->
  generate_content (llm self)
    (compliance_prompt (compliance_rules self) (context_of docs) q) w1
    = (Raise e, w2) ->
  check_compliance self q k st =
    (Raise e,
     {| world := w2;
        calls := calls st ++
          [ CallSearch q k;
            CallGenerate
              (compliance_prompt (compliance_rules self) (context_of docs) q) ]
     |}).
Proof.
  intros Hs Hg. rewrite check_compliance_run, Hs. unfold finish.
  rewrite Hg. by rewrite <- app_assoc.
Qed.

Lemma generation_failure_propagates_witness :
  check_compliance Scenario.failing_checker Scenario.query 1 Scenario.start =
    (Raise Scenario.quota_error,
     {| world := 1%nat;
        calls := [ CallSearch Scenario.query 1;
                   CallGenerate
                     (compliance_prompt Scenario.rules
                        (context_of [Scenario.passage_c1]) Scenario.query) ]
     |}).
Proof.
  apply (generation_failure_propagates Scenario.failing_checker Scenario.query
           1 Scenario.start [Scenario.passage_c1] 0%nat 1%nat
           Scenario.quota_error); reflexivity.
Defined.

(** C4: when the vector store returns no passage (for instance on a request
    with [k = 0]), [check_compliance] goes on: it calls the model once, on
    the prompt whose context is empty; when the model answers, the result
    has [sources == []] and [num_sources == 0]; and an exception can only
    be one that the model raised. *)
Theorem empty_retrieval_still_generates {W} (self : ComplianceChecker W)
    (q : pystr) (k : Z) (st : state W) (w1 : W) :
  similarity_search (vectorstore self) q k (world st) = (Return [], w1) ->
  let prompt := compliance_prompt (compliance_rules self) [] q in
  new_calls (check_compliance self q k) st
    = [ CallSearch q k; CallGenerate prompt ]
  /\ (forall resp w2 t,
        generate_content (llm self) prompt w1 = (Return resp, w2) ->
        text resp = Return t ->
        exists r st',
          check_compliance self q k st = (Return r, st')
          /\ dict_lookup r (lit "sources") = Some (PList [])
          /\ dict_lookup r (lit "num_sources") = Some (PInt 0)
          /\ dict_lookup r (lit "response") = Some (PStr t))
  /\ (forall e st',
        check_compliance self q k st = (Raise e, st') ->
        generate_content (llm self) prompt w1 = (Raise e, world st')
        \/ exists resp,
             generate_content (llm self) prompt w1 = (Return resp, world st')
             /\ text resp = Raise e).
Proof.
  intros Hs prompt. split; [|split].
  - by rewrite (check_compliance_calls self q k st [] w1 Hs).
  - intros resp w2 t Hg Ht.
    rewrite check_compliance_run, Hs. unfold finish.
    change (compliance_prompt _ (context_of []) q) with prompt.
    rewrite Hg, Ht. eexists _, _. split; [reflexivity|].
    rewrite compliance_result_sources, compliance_result_num_sources.
    split; [done|]. split; [done|].
    unfold compliance_result.
    rewrite dict_lookup_skip by lit_neq. apply dict_lookup_here.
  - intros e st'. rewrite check_compliance_run, Hs.
    apply finish_raises.
Qed.

Lemma empty_retrieval_still_generates_witness :
  let prompt := compliance_prompt Scenario.rules [] Scenario.query in
  new_calls (check_compliance Scenario.checker Scenario.query 0) Scenario.start
    = [ CallSearch Scenario.query 0; CallGenerate prompt ]
  /\ (forall resp w2 t,
        generate_content Scenario.stub_llm prompt 0%nat = (Return resp, w2) ->
        text resp = Return t ->
        exists r st',
          check_compliance Scenario.checker Scenario.query 0 Scenario.start
            = (Return r, st')
          /\ dict_lookup r (lit "sources") = Some (PList [])
          /\ dict_lookup r (lit "num_sources") = Some (PInt 0)
          /\ dict_lookup r (lit "response") = Some (PStr t))
  /\ (forall e st',
        check_compliance Scenario.checker Scenario.query 0 Scenario.start
          = (Raise e, st') ->
        generate_content Scenario.stub_llm prompt 0%nat = (Raise e, world st')
        \/ exists resp,
             generate_content Scenario.stub_llm prompt 0%nat
               = (Return resp, world st')
             /\ text resp = Raise e).
Proof.
  apply (empty_retrieval_still_generates Scenario.checker Scenario.query 0
           Scenario.start 0%nat).
  reflexivity.
Defined.

(** C5: the [sources] of a result, from [check_compliance] as from
    [answer_question], has one entry per retrieved passage, in the order
    of retrieval: the entry at position [i] is the source of the passage at
    position [i], so that a passage retrieved twice is listed twice. *)
Theorem sources_follow_retrieval {W} (self : ComplianceChecker W)
    (q : pystr) (k : Z) (st : state W) (docs : list Document) (w1 : W) :
  similarity_search (vectorstore self) q k (world st) = (Return docs, w1) ->
  forall r st',
    check_compliance self q k st = (Return r, st')
    \/ answer_question self q k st = (Return r, st') ->
    exists sources,
      dict_lookup r (lit "sources") = Some (PList sources)
      /\ length sources = length docs
      /\ forall i doc, docs !! i = Some doc ->
                       sources !! i = Some (source_of doc).
Proof.
  intros Hs r st' [H|H].
  - apply check_compliance_returns in H as (docs' & t & -> & w1' & Hs').
    assert (docs' = docs) as -> by congruence.
    exists (List.map source_of docs).
    rewrite compliance_result_sources.
    split; [done|]. split; [apply length_map|].
    intros i doc. apply sources_lookup.
  - apply answer_question_returns in H as (docs' & t & -> & w1' & Hs').
    assert (docs' = docs) as -> by congruence.
    exists (List.map source_of docs).
    rewrite qa_result_sources.
    split; [done|]. split; [apply length_map|].
    intros i doc. apply sources_lookup.
Qed.

Lemma sources_follow_retrieval_witness :
  exists sources,
    dict_lookup
      (compliance_result Scenario.query (lit "1. COMPLIANT...") Scenario.corpus)
      (lit "sources") = Some (PList sources)
    /\ length sources = length Scenario.corpus
    /\ forall i doc, Scenario.corpus !! i = Some doc ->
                     sources !! i = Some (source_of doc).
Proof.
  apply (sources_follow_retrieval Scenario.checker Scenario.query 3
           Scenario.start Scenario.corpus 0%nat eq_refl _
           {| world := 1%nat;
              calls := [ CallSearch Scenario.query 3;
                         CallGenerate
                           (compliance_prompt Scenario.rules
                              (context_of Scenario.corpus) Scenario.query) ]
           |}).
  left. reflexivity.
Defined.

(** C6: the prompt handed to the model is a function of the rule
    catalogue, the retrieved passages and the query alone.  Two runs that
    agree on these, whatever checker object, world, call history or [top_k]
    each has, hand over the same prompt, character for character; for
    [answer_question] the passages and the question suffice. *)
Theorem prompt_assembly_deterministic {W} (c1 c2 : ComplianceChecker W)
    (q : pystr) (k1 k2 : Z) (st1 st2 : state W) (docs : list Document)
    (w1 w2 : W) :
  compliance_rules c1 = compliance_rules c2 ->
  similarity_search (vectorstore c1) q k1 (world st1) = (Return docs, w1) ->
  similarity_search (vectorstore c2) q k2 (world st2) = (Return docs, w2) ->
  (exists prompt,
     generated_prompts (new_calls (check_compliance c1 q k1) st1) = [prompt]
     /\ generated_prompts (new_calls (check_compliance c2 q k2) st2) = [prompt])
  /\ (exists prompt,
        generated_prompts (new_calls (answer_question c1 q k1) st1) = [prompt]
        /\ generated_prompts (new_calls (answer_question c2 q k2) st2)
           = [prompt]).
Proof.
  intros Hrules Hs1 Hs2. split.
  - exists (compliance_prompt (compliance_rules c1) (context_of docs) q).
    rewrite (check_compliance_calls c1 q k1 st1 docs w1 Hs1).
    rewrite (check_compliance_calls c2 q k2 st2 docs w2 Hs2).
    by rewrite Hrules.
  - exists (qa_prompt (context_of docs) q).
    rewrite (answer_question_calls c1 q k1 st1 docs w1 Hs1).
    by rewrite (answer_question_calls c2 q k2 st2 docs w2 Hs2).
Qed.

Lemma prompt_assembly_deterministic_witness :
  (exists prompt,
     generated_prompts
       (new_calls (check_compliance Scenario.checker Scenario.query 3)
          Scenario.start) = [prompt]
     /\ generated_prompts
          (new_calls (check_compliance Scenario.failing_checker Scenario.query 7)
             {| world := 4%nat; calls := [CallSearch (lit "earlier") 1] |})
        = [prompt])
  /\ (exists prompt,
        generated_prompts
          (new_calls (answer_question Scenario.checker Scenario.query 3)
             Scenario.start) = [prompt]
        /\ generated_prompts
             (new_calls (answer_question Scenario.failing_checker Scenario.query 7)
                {| world := 4%nat; calls := [CallSearch (lit "earlier") 1] |})
           = [prompt]).
Proof.
  apply (prompt_assembly_deterministic Scenario.checker Scenario.failing_checker
           Scenario.query 3 7 Scenario.start
           {| world := 4%nat; calls := [CallSearch (lit "earlier") 1] |}
           Scenario.corpus 0%nat 4%nat); reflexivity.
Defined.



(** C8: a result of [answer_question] has exactly the keys [question],
    [answer] and [sources], and no [num_sources]; a result of
    [check_compliance] has [query], [response], [sources] and
    [num_sources]. *)
Theorem answer_question_fields {W} (self : ComplianceChecker W)
    (q : pystr) (k : Z) (st : state W) (r : pydict) (st' : state W) :
  answer_question self q k st = (Return r, st') ->
  dict_keys r = [ lit "question"; lit "answer"; lit "sources" ]
  /\ dict_lookup r (lit "num_sources") = None
  /\ forall r2 st2,
       check_compliance self q k st = (Return r2, st2) ->
       dict_keys r2 =
         [ lit "query"; lit "response"; lit "sources"; lit "num_sources" ]
       /\ is_Some (dict_lookup r2 (lit "num_sources")).
Proof.
  intros (docs & t & -> & _)%answer_question_returns.
  rewrite qa_result_keys, qa_result_num_sources.
  split; [done|]. split; [done|].
  intros r2 st2 (docs2 & t2 & -> & _)%check_compliance_returns.
  rewrite compliance_result_keys, compliance_result_num_sources.
  split; done.
Qed.

Lemma answer_question_fields_witness :
  dict_keys (qa_result Scenario.query (lit "1. COMPLIANT...")
               [Scenario.passage_c1])
    = [ lit "question"; lit "answer"; lit "sources" ]
  /\ dict_lookup (qa_result Scenario.query (lit "1. COMPLIANT...")
                    [Scenario.passage_c1]) (lit "num_sources") = None
  /\ forall r2 st2,
       check_compliance Scenario.checker Scenario.query 1 Scenario.start
         = (Return r2, st2) ->
       dict_keys r2 =
         [ lit "query"; lit "response"; lit "sources"; lit "num_sources" ]
       /\ is_Some (dict_lookup r2 (lit "num_sources")).
Proof.
  apply (answer_question_fields Scenario.checker Scenario.query 1
           Scenario.start _
           {| world := 1%nat;
              calls := [ CallSearch Scenario.query 1;
                         CallGenerate
                           (qa_prompt (context_of [Scenario.passage_c1])
                              Scenario.query) ] |}).
  reflexivity.
Defined.

(** C9: a passage whose metadata has no [filename] entry is listed as
    ["Unknown"], by [check_compliance] and by [answer_question] alike; and
    whatever the metadata hold, once the model has answered a result is
    returned: building [sources] raises nothing. *)
Theorem missing_filename_is_unknown {W} (self : ComplianceChecker W)
    (q : pystr) (k : Z) (st : state W) (docs : list Document) (w1 : W) :
  similarity_search (vectorstore self) q k (world st) = (Return docs, w1) ->
  (forall resp w2 t,
     generate_content (llm self)
       (compliance_prompt (compliance_rules self) (context_of docs) q) w1
       = (Return resp, w2) ->
     text resp = Return t ->
     exists r st',
       check_compliance self q k st = (Return r, st')
       /\ unnamed_listed_unknown docs r)
  /\ (forall resp w2 t,
        generate_content (llm self) (qa_prompt (context_of docs) q) w1
          = (Return resp, w2) ->
        text resp = Return t ->
        exists r st',
          answer_question self q k st = (Return r, st')
          /\ unnamed_listed_unknown docs r).
Proof.
  intros Hs.
  assert (forall i doc,
             docs !! i = Some doc ->
             metadata doc !! lit "filename" = None ->
             List.map source_of docs !! i = Some (PStr (lit "Unknown")))
    as Hunknown.
  { intros i doc Hi Hnone.
    rewrite (sources_lookup docs i doc Hi). by rewrite source_of_unknown. }
  split; intros resp w2 t Hg Ht.
  - eexists _, _.
    rewrite check_compliance_run, Hs. unfold finish. rewrite Hg, Ht.
    split; [reflexivity|]. exists (List.map source_of docs).
    by rewrite compliance_result_sources.
  - eexists _, _.
    rewrite answer_question_run, Hs. unfold finish. rewrite Hg, Ht.
    split; [reflexivity|]. exists (List.map source_of docs).
    by rewrite qa_result_sources.
Qed.

Lemma missing_filename_is_unknown_witness :
  (forall resp w2 t,
     generate_content Scenario.stub_llm
       (compliance_prompt Scenario.rules (context_of Scenario.corpus)
          Scenario.query) 0%nat
       = (Return resp, w2) ->
     text resp = Return t ->
     exists r st',
       check_compliance Scenario.checker Scenario.query 3 Scenario.start
         = (Return r, st')
       /\ unnamed_listed_unknown Scenario.corpus r)
  /\ (forall resp w2 t,
        generate_content Scenario.stub_llm
          (qa_prompt (context_of Scenario.corpus) Scenario.query) 0%nat
          = (Return resp, w2) ->
        text resp = Return t ->
        exists r st',
          answer_question Scenario.checker Scenario.query 3 Scenario.start
            = (Return r, st')
          /\ unnamed_listed_unknown Scenario.corpus r).
Proof.
  apply (missing_filename_is_unknown Scenario.checker Scenario.query 3
           Scenario.start Scenario.corpus 0%nat).
  reflexivity.
Defined.

(** C10: the prompt handed to the model contains the query (for
    [answer_question], the question) exactly as given, and the content of
    every retrieved passage exactly as retrieved, each as one unbroken run
    of characters: nothing is escaped, cut or cleaned on the way. *)
Theorem prompts_carry_input_verbatim {W} (self : ComplianceChecker W)
    (q : pystr) (k : Z) (st : state W) (docs : list Document) (w1 : W) :
  similarity_search (vectorstore self) q k (world st) = (Return docs, w1) ->
  (exists prompt,
     generated_prompts (new_calls (check_compliance self q k) st) = [prompt]
     /\ occurs_in q prompt
     /\ forall doc, doc ∈ docs -> occurs_in (page_content doc) prompt)
  /\ (exists prompt,
        generated_prompts (new_calls (answer_question self q k) st) = [prompt]
        /\ occurs_in q prompt
        /\ forall doc, doc ∈ docs -> occurs_in (page_content doc) prompt).
Proof.
  intros Hs. split.
  - exists (compliance_prompt (compliance_rules self) (context_of docs) q).
    split; [by rewrite (check_compliance_calls self q k st docs w1 Hs)|].
    split; [apply query_in_compliance_prompt|].
    intros doc Hin. eapply occurs_in_trans;
      [by apply content_in_context | apply context_in_compliance_prompt].
  - exists (qa_prompt (context_of docs) q).
    split; [by rewrite (answer_question_calls self q k st docs w1 Hs)|].
    split; [apply question_in_qa_prompt|].
    intros doc Hin. eapply occurs_in_trans;
      [by apply content_in_context | apply context_in_qa_prompt].
Qed.

Lemma prompts_carry_input_verbatim_witness :
  (exists prompt,
     generated_prompts
       (new_calls (check_compliance Scenario.checker Scenario.query 3)
          Scenario.start) = [prompt]
     /\ occurs_in Scenario.query prompt
     /\ forall doc, doc ∈ Scenario.corpus ->
                    occurs_in (page_content doc) prompt)
  /\ (exists prompt,
        generated_prompts
          (new_calls (answer_question Scenario.checker Scenario.query 3)
             Scenario.start) = [prompt]
        /\ occurs_in Scenario.query prompt
        /\ forall doc, doc ∈ Scenario.corpus ->
                       occurs_in (page_content doc) prompt).
Proof.
  apply (prompts_carry_input_verbatim Scenario.checker Scenario.query 3
           Scenario.start Scenario.corpus 0%nat).
  reflexivity.
Defined.

(** * Further properties of the checker *)

(** ** Inversion of a returned result *)

Lemma check_compliance_inversion {W} (self : ComplianceChecker W)
    (q : pystr) (k : Z) (st : state W) (r : pydict) (st' : state W) :
  check_compliance self q k st = (Return r, st') ->
  exists docs w1 resp t,
    similarity_search (vectorstore self) q k (world st) = (Return docs, w1)
    /\ generate_content (llm self)
         (compliance_prompt (compliance_rules self) (context_of docs) q) w1
       = (Return resp, world st')
    /\ text resp = Return t
    /\ r = compliance_result q t docs.
Proof.
  rewrite check_compliance_run.
  destruct (similarity_search _ q k (world st)) as [[docs|e] w1];
    [|discriminate].
  intros (resp & t & Hg & Ht & -> & _)%finish_returns.
  by exists docs, w1, resp, t.
Qed.

Lemma answer_question_inversion {W} (self : ComplianceChecker W)
    (q : pystr) (k : Z) (st : state W) (r : pydict) (st' : state W) :
  answer_question self q k st = (Return r, st') ->
  exists docs w1 resp t,
    similarity_search (vectorstore self) q k (world st) = (Return docs, w1)
    /\ generate_content (llm self) (qa_prompt (context_of docs) q) w1
       = (Return resp, world st')
    /\ text resp = Return t
    /\ r = qa_result q t docs.
Proof.
  rewrite answer_question_run.
  destruct (similarity_search _ q k (world st)) as [[docs|e] w1];
    [|discriminate].
  intros (resp & t & Hg & Ht & -> & _)%finish_returns.
  by exists docs, w1, resp, t.
Qed.

(** X1: when the vector store raises, [check_compliance] and
    [answer_question] raise the same exception; the search is the only call
    made, so the model is never reached. *)
Theorem retrieval_failure_propagates {W} (self : ComplianceChecker W)
    (q : pystr) (k : Z) (st : state W) (e : pyexn) (w1 : W) :
  similarity_search (vectorstore self) q k (world st) = (Raise e, w1) ->
  check_compliance self q k st
    = (Raise e, {| world := w1; calls := calls st ++ [CallSearch q k] |})
  /\ answer_question self q k st
     = (Raise e, {| world := w1; calls := calls st ++ [CallSearch q k] |}).
Proof.
  intros Hs. by rewrite check_compliance_run, answer_question_run, Hs.
Qed.

Lemma retrieval_failure_propagates_witness :
  check_compliance Outages.offline_checker Scenario.query 5 Scenario.start
    = (Raise Outages.index_error,
       {| world := 0%nat; calls := [CallSearch Scenario.query 5] |})
  /\ answer_question Outages.offline_checker Scenario.query 5 Scenario.start
     = (Raise Outages.index_error,
        {| world := 0%nat; calls := [CallSearch Scenario.query 5] |}).
Proof.
  apply (retrieval_failure_propagates Outages.offline_checker Scenario.query 5
           Scenario.start Outages.index_error 0%nat).
  reflexivity.
Defined.

(** X2: when the generation call raises, [answer_question] raises the same
    exception after exactly one search and one generation call, and returns
    nothing. *)
Theorem answer_question_generation_failure {W} (self : ComplianceChecker W)
    (q : pystr) (k : Z) (st : state W) (docs : list Document) (w1 w2 : W)
    (e : pyexn) :
  similarity_search (vectorstore self) q k (world st) = (Return docs, w1) ->
  generate_content (llm self) (qa_prompt (context_of docs) q) w1
    = (Raise e, w2) ->
  answer_question self q k st =
    (Raise e,
     {| world := w2;
        calls := calls st ++
          [ CallSearch q k; CallGenerate (qa_prompt (context_of docs) q) ] |}).
Proof.
  intros Hs Hg. rewrite answer_question_run, Hs. unfold finish.
  rewrite Hg. by rewrite <- app_assoc.
Qed.

Lemma answer_question_generation_failure_witness :
  answer_question Scenario.failing_checker Scenario.query 1 Scenario.start =
    (Raise Scenario.quota_error,
     {| world := 1%nat;
        calls := [ CallSearch Scenario.query 1;
                   CallGenerate
                     (qa_prompt (context_of [Scenario.passage_c1])
                        Scenario.query) ] |}).
Proof.
  apply (answer_question_generation_failure Scenario.failing_checker
           Scenario.query 1 Scenario.start [Scenario.passage_c1] 0%nat 1%nat
           Scenario.quota_error); reflexivity.
Defined.

(** X3: when the model returns a response whose [text] cannot be read, the
    exception raised by reading it leaves [check_compliance] and
    [answer_question]: no result is built, although the search and the
    generation have both been done. *)
Theorem unreadable_text_propagates {W} (self : ComplianceChecker W)
    (q : pystr) (k : Z) (st : state W) (docs : list Document) (w1 : W)
    (e : pyexn) :
  similarity_search (vectorstore self) q k (world st) = (Return docs, w1) ->
  (forall resp w2,
     generate_content (llm self)
       (compliance_prompt (compliance_rules self) (context_of docs) q) w1
       = (Return resp, w2) ->
     text resp = Raise e ->
     check_compliance self q k st =
       (Raise e,
        {| world := w2;
           calls := calls st ++
             [ CallSearch q k;
               CallGenerate
                 (compliance_prompt (compliance_rules self)
                    (context_of docs) q) ] |}))
  /\ (forall resp w2,
        generate_content (llm self) (qa_prompt (context_of docs) q) w1
          = (Return resp, w2) ->
        text resp = Raise e ->
        answer_question self q k st =
          (Raise e,
           {| world := w2;
              calls := calls st ++
                [ CallSearch q k;
                  CallGenerate (qa_prompt (context_of docs) q) ] |})).
Proof.
  intros Hs. split; intros resp w2 Hg Ht.
  - rewrite check_compliance_run, Hs. unfold finish.
    rewrite Hg, Ht. by rewrite <- app_assoc.
  - rewrite answer_question_run, Hs. unfold finish.
    rewrite Hg, Ht. by rewrite <- app_assoc.
Qed.

Lemma unreadable_text_propagates_witness :
  check_compliance Outages.blocked_checker Scenario.query 1 Scenario.start =
    (Raise Outages.blocked_error,
     {| world := 1%nat;
        calls := [ CallSearch Scenario.query 1;
                   CallGenerate
                     (compliance_prompt Scenario.rules
                        (context_of [Scenario.passage_c1]) Scenario.query) ]
     |}).
Proof.
  apply (proj1 (unreadable_text_propagates Outages.blocked_checker
                  Scenario.query 1 Scenario.start [Scenario.passage_c1]
                  0%nat Outages.blocked_error eq_refl)
           {| text := Raise Outages.blocked_error |} 1%nat);
    reflexivity.
Defined.

(** X4: [answer_question] does not depend on the rule registry: two
    checkers with the same vector store and model but different rules give
    the same outcome and make the same calls. *)
Theorem answer_question_ignores_rules {W} (store : VectorStore W)
    (model : LLM W) (rules1 rules2 : pyval) (q : pystr) (k : Z)
    (st : state W) :
  answer_question
    {| vectorstore := store; llm := model; compliance_rules := rules1 |} q k st
  = answer_question
      {| vectorstore := store; llm := model; compliance_rules := rules2 |}
      q k st.
Proof. by rewrite !answer_question_run. Qed.

(** X5: a result returned by [check_compliance] carries the query as given
    under [query] and, under [response], the text of the response that the
    model gave to the compliance prompt built from the retrieved passages;
    likewise [question] and [answer] for [answer_question]. *)
Theorem result_echoes_query_and_text {W} (self : ComplianceChecker W)
    (q : pystr) (k : Z) (st : state W) (r : pydict) (st' : state W) :
  (check_compliance self q k st = (Return r, st') ->
   dict_lookup r (lit "query") = Some (PStr q)
   /\ exists docs w1 resp t,
        similarity_search (vectorstore self) q k (world st) = (Return docs, w1)
        /\ generate_content (llm self)
             (compliance_prompt (compliance_rules self) (context_of docs) q) w1
           = (Return resp, world st')
        /\ text resp = Return t
        /\ dict_lookup r (lit "response") = Some (PStr t))
  /\ (answer_question self q k st = (Return r, st') ->
      dict_lookup r (lit "question") = Some (PStr q)
      /\ exists docs w1 resp t,
           similarity_search (vectorstore self) q k (world st)
             = (Return docs, w1)
           /\ generate_content (llm self) (qa_prompt (context_of docs) q) w1
              = (Return resp, world st')
           /\ text resp = Return t
           /\ dict_lookup r (lit "answer") = Some (PStr t)).
Proof.
  split.
  - intros (docs & w1 & resp & t & Hs & Hg & Ht & ->)%check_compliance_inversion.
    split; [apply dict_lookup_here|].
    exists docs, w1, resp, t. repeat (split; [done|]).
    unfold compliance_result. rewrite dict_lookup_skip by lit_neq.
    apply dict_lookup_here.
  - intros (docs & w1 & resp & t & Hs & Hg & Ht & ->)%answer_question_inversion.
    split; [apply dict_lookup_here|].
    exists docs, w1, resp, t. repeat (split; [done|]).
    unfold qa_result. rewrite dict_lookup_skip by lit_neq.
    apply dict_lookup_here.
Qed.

Lemma result_echoes_query_and_text_witness :
  dict_lookup
    (compliance_result Scenario.query (lit "1. COMPLIANT...")
       [Scenario.passage_c1]) (lit "query") = Some (PStr Scenario.query)
  /\ exists docs w1 resp t,
       similarity_search Scenario.index Scenario.query 1 0%nat
         = (Return docs, w1)
       /\ generate_content Scenario.stub_llm
            (compliance_prompt Scenario.rules (context_of docs) Scenario.query)
            w1
          = (Return resp, 1%nat)
       /\ text resp = Return t
       /\ dict_lookup
            (compliance_result Scenario.query (lit "1. COMPLIANT...")
               [Scenario.passage_c1]) (lit "response") = Some (PStr t).
Proof.
  apply (proj1 (result_echoes_query_and_text Scenario.checker Scenario.query 1
                  Scenario.start
                  (compliance_result Scenario.query (lit "1. COMPLIANT...")
                     [Scenario.passage_c1])
                  {| world := 1%nat;
                     calls := [ CallSearch Scenario.query 1;
                                CallGenerate
                                  (compliance_prompt Scenario.rules
                                     (context_of [Scenario.passage_c1])
                                     Scenario.query) ] |})).
  reflexivity.
Defined.

(** X6: a passage whose metadata has a [filename] entry is listed under the
    value stored there, whatever that value is; the default ["Unknown"] is
    used only when the entry is absent, so a [filename] of [None] is listed
    as [None]. *)
Theorem named_source_listed_as_stored {W} (self : ComplianceChecker W)
    (q : pystr) (k : Z) (st : state W) (docs : list Document) (w1 : W)
    (r : pydict) (st' : state W) :
  similarity_search (vectorstore self) q k (world st) = (Return docs, w1) ->
  check_compliance self q k st = (Return r, st')
  \/ answer_question self q k st = (Return r, st') ->
  exists sources,
    dict_lookup r (lit "sources") = Some (PList sources)
    /\ forall i doc name,
         docs !! i = Some doc ->
         metadata doc !! lit "filename" = Some name ->
         sources !! i = Some name.
Proof.
  intros Hs Hrun. exists (List.map source_of docs).
  assert (forall i doc name,
             docs !! i = Some doc ->
             metadata doc !! lit "filename" = Some name ->
             List.map source_of docs !! i = Some name) as Hnamed.
  { intros i doc name Hi Hname. rewrite (sources_lookup docs i doc Hi).
    unfold source_of. by rewrite Hname. }
  destruct Hrun as [H|H].
  - apply check_compliance_returns in H as (docs' & t & -> & w1' & Hs').
    assert (docs' = docs) as -> by congruence.
    by rewrite compliance_result_sources.
  - apply answer_question_returns in H as (docs' & t & -> & w1' & Hs').
    assert (docs' = docs) as -> by congruence.
    by rewrite qa_result_sources.
Qed.

Lemma named_source_listed_as_stored_witness :
  exists sources,
    dict_lookup
      (qa_result Scenario.query (lit "1. COMPLIANT...")
         [Outages.passage_null_name; Scenario.passage_c1])
      (lit "sources") = Some (PList sources)
    /\ forall i doc name,
         [Outages.passage_null_name; Scenario.passage_c1] !! i = Some doc ->
         metadata doc !! lit "filename" = Some name ->
         sources !! i = Some name.
Proof.
  apply (named_source_listed_as_stored Outages.null_checker Scenario.query 5
           Scenario.start [Outages.passage_null_name; Scenario.passage_c1]
           0%nat _
           {| world := 1%nat;
              calls := [ CallSearch Scenario.query 5;
                         CallGenerate
                           (qa_prompt
                              (context_of [Outages.passage_null_name;
                                           Scenario.passage_c1])
                              Scenario.query) ] |}).
  - reflexivity.
  - right. reflexivity.
Defined.

(** X7: the context built from [n >= 1] passages is as long as the
    passages' contents together plus [n - 1] delimiters of seven characters;
    from no passage it is the empty string. *)
Theorem context_length (docs : list Document) :
  context_of [] = []
  /\ (docs <> [] ->
      length (context_of docs) =
        (sum_list (List.map (fun doc => length (page_content doc)) docs)
         + 7 * (length docs - 1))%nat).
Proof.
  split; [reflexivity|].
  unfold context_of. induction docs as [|d rest IH]; [done|]. intros _.
  destruct rest as [|d' rest].
  - simpl. lia.
  - change (List.map page_content (d :: d' :: rest))
      with (page_content d :: List.map page_content (d' :: rest)).
    rewrite join_cons by done. rewrite !length_app, IH by done.
    change (length passage_delimiter) with 7%nat.
    simpl. lia.
Qed.

Lemma context_length_witness :
  length (context_of Scenario.corpus) =
    (sum_list (List.map (fun doc => length (page_content doc)) Scenario.corpus)
     + 7 * (length Scenario.corpus - 1))%nat.
Proof.
  apply (proj2 (context_length Scenario.corpus)). discriminate.
Defined.

(** X8: the delimiter is not escaped in the passages: two passages, and one
    passage whose content is the two contents with the delimiter between
    them, give the same compliance prompt and the same question-answering
    prompt. *)
Theorem delimiter_is_not_escaped (a b merged : Document)
    (rest : list Document) (rules : pyval) (q : pystr) :
  page_content merged = page_content a ++ passage_delimiter ++ page_content b ->
  compliance_prompt rules (context_of (a :: b :: rest)) q
    = compliance_prompt rules (context_of (merged :: rest)) q
  /\ qa_prompt (context_of (a :: b :: rest)) q
     = qa_prompt (context_of (merged :: rest)) q.
Proof.
  intros Hm.
  assert (context_of (a :: b :: rest) = context_of (merged :: rest)) as ->;
    [|done].
  unfold context_of. simpl List.map. rewrite Hm.
  rewrite join_cons by done.
  destruct rest as [|c rest].
  - reflexivity.
  - rewrite !join_cons by done. by rewrite <- !app_assoc.
Qed.

Lemma delimiter_is_not_escaped_witness :
  compliance_prompt Scenario.rules
    (context_of [Scenario.passage_c1; Scenario.passage_anonymous])
    Scenario.query
  = compliance_prompt Scenario.rules
      (context_of
         [ {| page_content :=
                page_content Scenario.passage_c1 ++ passage_delimiter
                  ++ page_content Scenario.passage_anonymous;
              metadata := ∅ |} ])
      Scenario.query
  /\ qa_prompt (context_of [Scenario.passage_c1; Scenario.passage_anonymous])
       Scenario.query
     = qa_prompt
         (context_of
            [ {| page_content :=
                   page_content Scenario.passage_c1 ++ passage_delimiter
                     ++ page_content Scenario.passage_anonymous;
                 metadata := ∅ |} ])
         Scenario.query.
Proof.
  apply (delimiter_is_not_escaped Scenario.passage_c1
           Scenario.passage_anonymous _ [] Scenario.rules Scenario.query).
  reflexivity.
Defined.

(** X9: when the vector store returns no passage, [answer_question] still
    calls the model once, on the prompt whose context is empty; when the
    model answers, the result has [sources == []] and the model's text as
    [answer]. *)
Theorem answer_question_empty_retrieval {W} (self : ComplianceChecker W)
    (q : pystr) (k : Z) (st : state W) (w1 : W) :
  similarity_search (vectorstore self) q k (world st) = (Return [], w1) ->
  new_calls (answer_question self q k) st
    = [ CallSearch q k; CallGenerate (qa_prompt [] q) ]
  /\ forall resp w2 t,
       generate_content (llm self) (qa_prompt [] q) w1 = (Return resp, w2) ->
       text resp = Return t ->
       exists r st',
         answer_question self q k st = (Return r, st')
         /\ dict_lookup r (lit "sources") = Some (PList [])
         /\ dict_lookup r (lit "answer") = Some (PStr t).
Proof.
  intros Hs. split.
  - by rewrite (answer_question_calls self q k st [] w1 Hs).
  - intros resp w2 t Hg Ht.
    rewrite (answer_question_succeeds self q k st [] w1 resp w2 t Hs Hg Ht).
    eexists _, _. split; [reflexivity|].
    rewrite qa_result_sources. split; [done|].
    unfold qa_result. rewrite dict_lookup_skip by lit_neq.
    apply dict_lookup_here.
Qed.

Lemma answer_question_empty_retrieval_witness :
  new_calls (answer_question Scenario.checker Scenario.query 0) Scenario.start
    = [ CallSearch Scenario.query 0;
        CallGenerate (qa_prompt [] Scenario.query) ]
  /\ forall resp w2 t,
       generate_content Scenario.stub_llm (qa_prompt [] Scenario.query) 0%nat
         = (Return resp, w2) ->
       text resp = Return t ->
       exists r st',
         answer_question Scenario.checker Scenario.query 0 Scenario.start
           = (Return r, st')
         /\ dict_lookup r (lit "sources") = Some (PList [])
         /\ dict_lookup r (lit "answer") = Some (PStr t).
Proof.
  apply (answer_question_empty_retrieval Scenario.checker Scenario.query 0
           Scenario.start 0%nat).
  reflexivity.
Defined.

(** X10: whatever the services do, a run of [check_compliance] or of
    [answer_question] keeps the calls already recorded and adds the search,
    followed, exactly when the search returned, by one generation on the
    prompt built from the passages that this search returned, and by
    nothing when the search raised.  It never calls the model twice, never
    calls it before the search, and never reads the rule file again. *)
Theorem one_search_then_at_most_one_generation {W}
    (self : ComplianceChecker W) (q : pystr) (k : Z) (st : state W) :
  (calls (check_compliance self q k st).2
     = calls st ++ new_calls (check_compliance self q k) st
   /\ new_calls (check_compliance self q k) st =
        CallSearch q k ::
        match (similarity_search (vectorstore self) q k (world st)).1 with
        | Return docs =>
            [ CallGenerate
                (compliance_prompt (compliance_rules self)
                   (context_of docs) q) ]
        | Raise _ => []
        end)
  /\ (calls (answer_question self q k st).2
        = calls st ++ new_calls (answer_question self q k) st
      /\ new_calls (answer_question self q k) st =
           CallSearch q k ::
           match (similarity_search (vectorstore self) q k (world st)).1 with
           | Return docs => [ CallGenerate (qa_prompt (context_of docs) q) ]
           | Raise _ => []
           end).
Proof.
  split.
  - destruct (similarity_search (vectorstore self) q k (world st))
      as [[docs|e] w1] eqn:Hs; cbn [fst].
    + pose proof (check_compliance_calls self q k st docs w1 Hs) as Hc.
      rewrite Hc. split; [|done].
      rewrite check_compliance_run, Hs, finish_calls.
      by rewrite <- app_assoc.
    + assert (calls (check_compliance self q k st).2
              = calls st ++ [CallSearch q k]) as Hc
        by (by rewrite check_compliance_run, Hs).
      by rewrite (new_calls_app _ _ _ Hc).
  - destruct (similarity_search (vectorstore self) q k (world st))
      as [[docs|e] w1] eqn:Hs; cbn [fst].
    + pose proof (answer_question_calls self q k st docs w1 Hs) as Hc.
      rewrite Hc. split; [|done].
      rewrite answer_question_run, Hs, finish_calls.
      by rewrite <- app_assoc.
    + assert (calls (answer_question self q k st).2
              = calls st ++ [CallSearch q k]) as Hc
        by (by rewrite answer_question_run, Hs).
      by rewrite (new_calls_app _ _ _ Hc).
Qed.

(** ** The JSON text of a string *)

Lemma hex_digit_range d :
  (d < 16)%N -> (32 <= Json.hex_digit d <= 126)%N.
Proof.
  intros Hd. unfold Json.hex_digit.
  destruct (d <? 10)%N eqn:Hlt; lia.
Qed.

Lemma nibble_lt n : (N.land n 15 < 16)%N.
Proof.
  change 15%N with (N.ones 4). rewrite N.land_ones.
  by apply N.mod_lt.
Qed.

Lemma u_escape_printable n :
  Forall (fun c => (32 <= c <= 126)%N) (Json.u_escape n).
Proof.
  unfold Json.u_escape, Json.hex4.
  repeat (apply Forall_cons; split;
          [first [ apply hex_digit_range, nibble_lt | by vm_compute; lia
                 | vm_compute; split; discriminate ]|]).
  apply Forall_nil_2.
Qed.

Lemma escape_char_printable c :
  Forall (fun c => (32 <= c <= 126)%N) (Json.escape_char c).
Proof.
  unfold Json.escape_char.
  repeat match goal with
         | |- context [if ?b then _ else _] => destruct b eqn:?
         end;
    first
      [ apply u_escape_printable
      | apply Forall_app; split; apply u_escape_printable
      | apply Forall_cons; split; [|apply Forall_nil_2];
        split; [by apply N.ltb_ge | by apply N.leb_le]
      | repeat (apply Forall_cons; split;
                [vm_compute; split; discriminate|]);
        apply Forall_nil_2 ].
Qed.

(** X11: the JSON text of a string, as written for every rule id, field
    name and string value of the registry, consists of printable ASCII
    characters only, whatever the string holds: control characters, line
    breaks and characters beyond ASCII are all written as escapes. *)
Theorem json_string_is_printable_ascii (s : pystr) :
  Forall (fun c => (32 <= c <= 126)%N) (Json.encode_basestring_ascii s).
Proof.
  unfold Json.encode_basestring_ascii.
  apply Forall_app; split; [|apply Forall_app; split].
  - apply Forall_cons; split; [lia|apply Forall_nil_2].
  - induction s as [|c s IH]; [apply Forall_nil_2|].
    simpl. apply Forall_app; split; [apply escape_char_printable|apply IH].
  - apply Forall_cons; split; [lia|apply Forall_nil_2].
Qed.

(** X12: the registry is what the rule file held when the checker was
    constructed: after a successful [init], every compliance check hands
    the model a prompt that contains the JSON text of the value loaded
    then, and the check makes no further call to load it. *)
Theorem checks_use_the_rules_loaded_at_init {W}
    (load_json_file : pystr -> W -> outcome pyval * W)
    (store : VectorStore W) (model : LLM W) (rules_path : pystr)
    (st : state W) (rules : pyval) (w0 : W) :
  load_json_file rules_path (world st) = (Return rules, w0) ->
  exists self st0,
    init load_json_file store model rules_path st = (Return self, st0)
    /\ world st0 = w0
    /\ forall q k st1 docs w1,
         similarity_search store q k (world st1) = (Return docs, w1) ->
         exists prompt,
           new_calls (check_compliance self q k) st1
             = [CallSearch q k; CallGenerate prompt]
           /\ occurs_in (Json.dumps rules) prompt.
Proof.
  intros Hl.
  exists {| vectorstore := store; llm := model; compliance_rules := rules |},
         {| world := w0; calls := calls st ++ [CallLoadRules rules_path] |}.
  split; [|split; [done|]].
  - unfold init, bind, perform, ret. by rewrite Hl.
  - intros q k st1 docs w1 Hs.
    exists (compliance_prompt rules (context_of docs) q). split.
    + by rewrite (check_compliance_calls
                    {| vectorstore := store; llm := model;
                       compliance_rules := rules |} q k st1 docs w1 Hs).
    + apply rules_in_compliance_prompt.
Qed.

Lemma checks_use_the_rules_loaded_at_init_witness :
  exists self st0,
    init Scenario.files Scenario.index Scenario.stub_llm Scenario.rules_path
      Scenario.start = (Return self, st0)
    /\ world st0 = 0%nat
    /\ forall q k st1 docs w1,
         similarity_search Scenario.index q k (world st1) = (Return docs, w1) ->
         exists prompt,
           new_calls (check_compliance self q k) st1
             = [CallSearch q k; CallGenerate prompt]
           /\ occurs_in (Json.dumps Scenario.rules) prompt.
Proof.
  apply (checks_use_the_rules_loaded_at_init Scenario.files Scenario.index
           Scenario.stub_llm Scenario.rules_path Scenario.start
           Scenario.rules 0%nat).
  reflexivity.
Defined.

(** * The pages *)

(** One step of a page: the plumbing is unfolded, the calls are kept. *)
Ltac ui_step :=
  cbv beta iota zeta delta
    [ui_bind within st ui_ret ui_eval get_session set_session get_messages
     set_messages append_message set_compliance_query button on_backend rerun
     try_except];
  cbn.

(** List appends brought to the right. *)
Ltac list_norm := repeat (progress (rewrite <- ?app_assoc; cbn [app])).

(** The same with the fields of a page built in the proof read off. *)
Ltac ui_run :=
  cbv beta iota zeta delta
    [ui_bind within st ui_ret ui_eval get_session set_session get_messages
     set_messages append_message set_compliance_query button on_backend rerun
     try_except backend session_state rendered compliance_query messages].

Section PageFacts.

Context {W : Type}.
Variable browser : gestures.
Variable is_exception : pyexn -> bool.
Variable container_repr : pyval -> pystr.
Variable misuse : pystr -> pyval -> pyexn.

Implicit Types (pg : page W) (checker : ComplianceChecker W).
Implicit Types (ms : list message) (q t : pystr) (docs : list Document).

#[local] Arguments lit : simpl never.
#[local] Arguments getitem : simpl never.
#[local] Arguments write_sources : simpl never.
#[local] Arguments suggest : simpl never.
#[local] Arguments answer_in_chat : simpl never.
#[local] Arguments show_rule : simpl never.
#[local] Arguments py_str : simpl never.
#[local] Arguments qa_result : simpl never.
#[local] Arguments compliance_result : simpl never.
#[local] Arguments check_compliance : simpl never.
#[local] Arguments answer_question : simpl never.

Lemma getitem_found (d : pydict) key v :
  dict_lookup d key = Some v -> getitem d key = Return v.
Proof. unfold getitem. by intros ->. Qed.

Lemma getitem_qa_answer q t docs :
  getitem (qa_result q t docs) (lit "answer") = Return (PStr t).
Proof.
  apply getitem_found. unfold qa_result.
  rewrite dict_lookup_skip by lit_neq. apply dict_lookup_here.
Qed.

Lemma getitem_qa_sources q t docs :
  getitem (qa_result q t docs) (lit "sources")
  = Return (PList (List.map source_of docs)).
Proof. apply getitem_found, qa_result_sources. Qed.

Lemma getitem_compliance_response q t docs :
  getitem (compliance_result q t docs) (lit "response") = Return (PStr t).
Proof.
  apply getitem_found. unfold compliance_result.
  rewrite dict_lookup_skip by lit_neq. apply dict_lookup_here.
Qed.

Lemma getitem_compliance_sources q t docs :
  getitem (compliance_result q t docs) (lit "sources")
  = Return (PList (List.map source_of docs)).
Proof. apply getitem_found, compliance_result_sources. Qed.

Lemma getitem_compliance_num_sources q t docs :
  getitem (compliance_result q t docs) (lit "num_sources")
  = Return (PInt (Z.of_nat (length docs))).
Proof. apply getitem_found, compliance_result_num_sources. Qed.


Lemma for_each_render {A} (body : A -> UI unit) (f : A -> list st_call) :
  (forall x pg,
     body x pg =
       (Finished tt,
        {| backend := backend pg; session_state := session_state pg;
           rendered := rendered pg ++ f x |})) ->
  forall (items : list A) pg,
    for_each items body pg =
      (Finished tt,
       {| backend := backend pg; session_state := session_state pg;
          rendered := rendered pg ++ List.concat (List.map f items) |}).
Proof.
  intros Hbody items. induction items as [|x items IH]; intros pg.
  - cbn. unfold ui_ret. rewrite app_nil_r. by destruct pg.
  - cbn [for_each]. unfold ui_bind. rewrite Hbody, IH. cbn.
    by rewrite <- app_assoc.
Qed.

Lemma for_each_st {A} (f : A -> st_call) (items : list A) pg :
  for_each items (fun x => st (f x)) pg
  = (Finished tt,
     {| backend := backend pg; session_state := session_state pg;
        rendered := rendered pg ++ List.map f items |}).
Proof.
  revert pg. induction items as [|x items IH]; intros pg.
  - cbn. unfold ui_ret. rewrite app_nil_r. by destruct pg.
  - cbn [for_each]. unfold ui_bind, st. rewrite IH. cbn.
    by rewrite <- app_assoc.
Qed.

Lemma write_sources_list n (items : list pyval) pg :
  write_sources container_repr misuse n (PList items) pg
  = (Finished tt,
     {| backend := backend pg; session_state := session_state pg;
        rendered := rendered pg
                    ++ source_lines container_repr (take n items) |}).
Proof.
  unfold write_sources. unfold ui_bind, ui_eval. cbn.
  by rewrite for_each_st.
Qed.

(** The three ways the answer to a question ends. *)
Lemma answer_in_chat_answered checker q pg ms t docs st' :
  messages (session_state pg) = Some ms ->
  answer_question checker q default_top_k (backend pg)
    = (Return (qa_result q t docs), st') ->
  answer_in_chat is_exception container_repr misuse checker q pg =
    (Finished tt,
     {| backend := st';
        session_state :=
          {| compliance_query := compliance_query (session_state pg);
             messages := Some (ms ++ exchange q (PStr t)) |};
        rendered := rendered pg ++
          [ StEnter (ChatMessage (lit "user")); StMarkdown (PStr q);
            StExit (ChatMessage (lit "user"));
            StEnter (ChatMessage (lit "assistant"));
            StEnter (Spinner (lit "Thinking..."));
            StMarkdown (PStr t);
            StEnter (Expander ([128218%N] ++ lit " Sources")) ]
          ++ source_lines container_repr (take 3 (List.map source_of docs))
          ++ [ StExit (Expander ([128218%N] ++ lit " Sources"));
               StExit (Spinner (lit "Thinking..."));
               StExit (ChatMessage (lit "assistant")) ] |}).
Proof.
  intros Hm Ha. unfold answer_in_chat. ui_step. rewrite Hm. ui_step.
  rewrite Ha. ui_step. rewrite getitem_qa_answer. ui_step.
  rewrite getitem_qa_sources. ui_step. rewrite write_sources_list. ui_step.
  unfold exchange. by rewrite <- !app_assoc.
Qed.

Lemma answer_in_chat_caught checker q pg ms e st' :
  messages (session_state pg) = Some ms ->
  answer_question checker q default_top_k (backend pg) = (Raise e, st') ->
  is_exception e = true ->
  answer_in_chat is_exception container_repr misuse checker q pg =
    (Finished tt,
     {| backend := st';
        session_state :=
          {| compliance_query := compliance_query (session_state pg);
             messages := Some (ms ++ exchange q (PStr (error_text e))) |};
        rendered := rendered pg ++
          [ StEnter (ChatMessage (lit "user")); StMarkdown (PStr q);
            StExit (ChatMessage (lit "user"));
            StEnter (ChatMessage (lit "assistant"));
            StEnter (Spinner (lit "Thinking..."));
            StError (error_text e);
            StExit (Spinner (lit "Thinking..."));
            StExit (ChatMessage (lit "assistant")) ] |}).
Proof.
  intros Hm Ha He. unfold answer_in_chat. ui_step. rewrite Hm. ui_step.
  rewrite Ha. ui_step. rewrite He. ui_step.
  unfold exchange, error_text. by rewrite <- !app_assoc.
Qed.

Lemma answer_in_chat_uncaught checker q pg ms e st' :
  messages (session_state pg) = Some ms ->
  answer_question checker q default_top_k (backend pg) = (Raise e, st') ->
  is_exception e = false ->
  answer_in_chat is_exception container_repr misuse checker q pg =
    (Crashed e,
     {| backend := st';
        session_state :=
          {| compliance_query := compliance_query (session_state pg);
             messages :=
               Some (ms ++ [ {| role := lit "user"; content := PStr q |} ]) |};
        rendered := rendered pg ++
          [ StEnter (ChatMessage (lit "user")); StMarkdown (PStr q);
            StExit (ChatMessage (lit "user"));
            StEnter (ChatMessage (lit "assistant"));
            StEnter (Spinner (lit "Thinking..."));
            StExit (Spinner (lit "Thinking..."));
            StExit (ChatMessage (lit "assistant")) ] |}).
Proof.
  intros Hm Ha He. unfold answer_in_chat. ui_step. rewrite Hm. ui_step.
  rewrite Ha. ui_step. rewrite He. ui_step.
  by rewrite <- !app_assoc.
Qed.

(** [show_qa_system] up to the chat input: the history is displayed and the
    session is left alone, apart from an unset history becoming empty. *)
Lemma show_qa_system_run checker pg :
  show_qa_system browser is_exception container_repr misuse checker pg =
  ui_bind
    (match submitted browser with
     | Some question =>
         if truthy (PStr question)
         then answer_in_chat is_exception container_repr misuse checker question
         else ui_ret tt
     | None => ui_ret tt
     end)
    (fun _ =>
       ui_bind
         (button browser ([128465; 65039]%N ++ lit " Clear Chat History")
            false false)
         (fun clear : bool =>
            if clear then ui_bind (set_messages []) (fun _ => rerun)
            else ui_ret tt))
    {| backend := backend pg;
       session_state :=
         {| compliance_query := compliance_query (session_state pg);
            messages := Some (default [] (messages (session_state pg))) |};
       rendered := rendered pg ++
         [ StHeader ([128172%N] ++ lit " Contract Q&A System");
           StWrite (lit "Ask any question about the contracts and get instant answers.") ]
         ++ history_render (default [] (messages (session_state pg)))
         ++ [ StChatInput (lit "Ask a question about the contracts...") ] |}.
Proof.
  unfold show_qa_system.
  destruct pg as [bk [cq [ms|]] shown]; ui_step.
  - rewrite (for_each_render _
               (fun m => [ StEnter (ChatMessage (role m));
                           StMarkdown (content m);
                           StExit (ChatMessage (role m)) ]))
      by (intros; by rewrite <- !app_assoc).
    ui_step. unfold history_render. by rewrite <- !app_assoc.
  - by rewrite <- !app_assoc.
Qed.

#[local] Arguments analyse : simpl never.

Lemma suggest_run label query pg :
  suggest browser label query pg =
    (Finished tt,
     {| backend := backend pg;
        session_state :=
          {| compliance_query :=
               if clicked browser label then Some query
               else compliance_query (session_state pg);
             messages := messages (session_state pg) |};
        rendered := rendered pg ++ [StButton label false false] |}).
Proof.
  unfold suggest. ui_step.
  destruct (clicked browser label); ui_step; [done|].
  by destruct pg as [bk [cq ms] shown].
Qed.

(** The three ways a check ends. *)
Lemma analyse_done checker q pg t docs st' :
  check_compliance checker q default_top_k (backend pg)
    = (Return (compliance_result q t docs), st') ->
  analyse is_exception container_repr misuse checker q pg =
    (Finished tt,
     {| backend := st'; session_state := session_state pg;
        rendered := rendered pg ++
          [ StEnter (Spinner ([128269%N] ++ lit " Analyzing contracts..."));
            StSuccess ([9989%N] ++ lit " Analysis Complete!");
            StSubheader ([128203%N] ++ lit " Compliance Analysis");
            StMarkdown (PStr t);
            StEnter (Expander ([128196%N] ++ lit " View Sources"));
            StWrite (lit "**Documents Analyzed:** "
                       ++ Json.int_repr (Z.of_nat (length docs)));
            StWrite (lit "**Source Files:**") ]
          ++ source_lines container_repr (take 5 (List.map source_of docs))
          ++ [ StExit (Expander ([128196%N] ++ lit " View Sources"));
               StExit (Spinner ([128269%N] ++ lit " Analyzing contracts...")) ]
     |}).
Proof.
  intros Hc. unfold analyse. ui_step. rewrite Hc. ui_step.
  rewrite getitem_compliance_response. ui_step.
  rewrite getitem_compliance_num_sources. ui_step.
  rewrite getitem_compliance_sources. ui_step.
  rewrite write_sources_list. ui_step.
  list_norm. reflexivity.
Qed.

Lemma analyse_caught checker q pg e st' :
  check_compliance checker q default_top_k (backend pg) = (Raise e, st') ->
  is_exception e = true ->
  analyse is_exception container_repr misuse checker q pg =
    (Finished tt,
     {| backend := st'; session_state := session_state pg;
        rendered := rendered pg ++
          [ StEnter (Spinner ([128269%N] ++ lit " Analyzing contracts..."));
            StError (error_text e);
            StExit (Spinner ([128269%N] ++ lit " Analyzing contracts...")) ]
     |}).
Proof.
  intros Hc He. unfold analyse. ui_step. rewrite Hc. ui_step.
  rewrite He. ui_step. unfold error_text. list_norm. reflexivity.
Qed.

Lemma analyse_uncaught checker q pg e st' :
  check_compliance checker q default_top_k (backend pg) = (Raise e, st') ->
  is_exception e = false ->
  analyse is_exception container_repr misuse checker q pg =
    (Crashed e,
     {| backend := st'; session_state := session_state pg;
        rendered := rendered pg ++
          [ StEnter (Spinner ([128269%N] ++ lit " Analyzing contracts..."));
            StExit (Spinner ([128269%N] ++ lit " Analyzing contracts...")) ]
     |}).
Proof.
  intros Hc He. unfold analyse. ui_step. rewrite Hc. ui_step.
  rewrite He. ui_step. list_norm. reflexivity.
Qed.

(** [show_compliance_checker] up to its two last [if]s: it has displayed
    its widgets, written one line, and touched nothing but the query kept
    in the session. *)
Lemma show_compliance_checker_run checker pg :
  exists kept shown,
    show_compliance_checker browser is_exception container_repr misuse
      checker pg =
    ui_bind
      (if clicked browser ([128465; 65039]%N ++ lit " Clear")
       then ui_bind (set_compliance_query []) (fun _ => rerun)
       else ui_ret tt)
      (fun _ =>
         if clicked browser ([128269%N] ++ lit " Check Compliance")
            && truthy (PStr (typed browser))
         then analyse is_exception container_repr misuse checker
                (typed browser)
         else ui_ret tt)
      {| backend := backend pg;
         session_state :=
           {| compliance_query := kept;
              messages := messages (session_state pg) |};
         rendered := rendered pg ++ shown |}
    /\ written shown =
         [lit "Ask questions about contract compliance and get detailed analysis."]
    /\ errors_shown shown = [].
Proof.
  unfold show_compliance_checker. destruct pg as [services [kept ms] shown].
  ui_run. rewrite suggest_run.
  ui_run. rewrite suggest_run.
  ui_run. rewrite suggest_run.
  ui_run. rewrite suggest_run.
  ui_run. rewrite suggest_run.
  ui_run. rewrite suggest_run.
  ui_run. cbn. list_norm.
  eexists _, _. split; [reflexivity|]. split; reflexivity.
Qed.

End PageFacts.

(** ** The question-answering page *)
Section QuestionPage.

#[local] Arguments lit : simpl never.
#[local] Arguments answer_in_chat : simpl never.
#[local] Arguments answer_question : simpl never.
#[local] Arguments qa_result : simpl never.
#[local] Arguments py_str : simpl never.

Lemma written_app (a b : list st_call) : written (a ++ b) = written a ++ written b.
Proof. apply omap_app. Qed.



(** The page after the answer to a question, when the exception that
    [answer_question] may raise is one that [except Exception] catches. *)
Lemma answer_in_chat_replies {W} is_exception container_repr misuse
    (checker : ComplianceChecker W) (q : pystr) (pg : page W)
    (ms : list message) :
  messages (session_state pg) = Some ms ->
  (forall e st',
     answer_question checker q default_top_k (backend pg) = (Raise e, st') ->
     is_exception e = true) ->
  exists reply shown,
    answer_in_chat is_exception container_repr misuse checker q pg =
      (Finished tt,
       {| backend := (answer_question checker q default_top_k (backend pg)).2;
          session_state :=
            {| compliance_query := compliance_query (session_state pg);
               messages := Some (ms ++ exchange q reply) |};
          rendered := rendered pg ++ shown |})
    /\ match (answer_question checker q default_top_k (backend pg)).1 with
       | Return r => dict_lookup r (lit "answer") = Some reply
       | Raise e => reply = PStr (error_text e)
       end.
Proof.
  intros Hm Hcatch.
  destruct (answer_question checker q default_top_k (backend pg))
    as [[r|e] st'] eqn:Ha.
  - destruct (answer_question_returns _ _ _ _ _ _ Ha) as (docs & t & -> & _).
    eexists (PStr t), _. split.
    + apply (answer_in_chat_answered _ _ _ _ _ _ ms t docs st' Hm Ha).
    + change (dict_lookup (qa_result q t docs) (lit "answer")
              = Some (PStr t)).
      unfold qa_result. rewrite dict_lookup_skip by lit_neq.
      apply dict_lookup_here.
  - eexists (PStr (error_text e)), _. split; [|done].
    apply (answer_in_chat_caught _ _ _ _ _ _ ms e st' Hm Ha).
    by apply (Hcatch e st').
Qed.

(** The whole page when a question is submitted and the history is not
    cleared. *)
Lemma show_qa_system_exchange {W} (browser : gestures)
    (is_exception : pyexn -> bool) (container_repr : pyval -> pystr)
    (misuse : pystr -> pyval -> pyexn) (checker : ComplianceChecker W)
    (pg : page W) (q : pystr) :
  submitted browser = Some q ->
  q <> [] ->
  clicked browser ([128465; 65039]%N ++ lit " Clear Chat History") = false ->
  (forall e st',
     answer_question checker q default_top_k (backend pg) = (Raise e, st') ->
     is_exception e = true) ->
  exists reply shown,
    show_qa_system browser is_exception container_repr misuse checker pg =
      (Finished tt,
       {| backend := (answer_question checker q default_top_k (backend pg)).2;
          session_state :=
            {| compliance_query := compliance_query (session_state pg);
               messages :=
                 Some (default [] (messages (session_state pg))
                       ++ exchange q reply) |};
          rendered := rendered pg ++ shown |})
    /\ match (answer_question checker q default_top_k (backend pg)).1 with
       | Return r => dict_lookup r (lit "answer") = Some reply
       | Raise e => reply = PStr (error_text e)
       end.
Proof.
  intros Hq Hne Hclear Hcatch.
  rewrite show_qa_system_run, Hq.
  assert (truthy (PStr q) = true) as ->.
  { unfold truthy. by rewrite bool_decide_eq_false_2. }
  unfold ui_bind at 1.
  match goal with
  | |- context [answer_in_chat _ _ _ _ _ ?p] =>
      destruct (answer_in_chat_replies is_exception container_repr misuse
                  checker q p (default [] (messages (session_state pg)))
                  eq_refl Hcatch)
        as (reply & shown & Heq & Hreply)
  end.
  rewrite Heq. ui_step. cbn in Hclear. rewrite Hclear. ui_step.
  eexists reply, _. split; [|exact Hreply].
  rewrite <- !app_assoc. reflexivity.
Qed.

(** X13: a question submitted on the question-answering page adds exactly
    two messages to the chat history, the question under [user] and then a
    reply under [assistant]: the answer when [answer_question] returns, the
    error text when it raises an exception that [except Exception] catches.
    In both cases the page runs to its end. *)
Theorem chat_gains_one_exchange {W} (browser : gestures)
    (is_exception : pyexn -> bool) (container_repr : pyval -> pystr)
    (misuse : pystr -> pyval -> pyexn) (checker : ComplianceChecker W)
    (pg : page W) (q : pystr) :
  submitted browser = Some q ->
  q <> [] ->
  clicked browser ([128465; 65039]%N ++ lit " Clear Chat History") = false ->
  (forall e st',
     answer_question checker q default_top_k (backend pg) = (Raise e, st') ->
     is_exception e = true) ->
  (show_qa_system browser is_exception container_repr misuse checker pg).1
    = Finished tt
  /\ exists reply,
       messages
         (session_state
            (show_qa_system browser is_exception container_repr misuse
               checker pg).2)
       = Some (default [] (messages (session_state pg)) ++ exchange q reply)
       /\ match (answer_question checker q default_top_k (backend pg)).1 with
          | Return r => dict_lookup r (lit "answer") = Some reply
          | Raise e => reply = PStr (error_text e)
          end.
Proof.
  intros Hq Hne Hclear Hcatch.
  destruct (show_qa_system_exchange browser is_exception container_repr misuse
              checker pg q Hq Hne Hclear Hcatch)
    as (reply & shown & -> & Hreply).
  split; [done|]. by exists reply.
Qed.

Lemma chat_gains_one_exchange_witness :
  (show_qa_system (Visit.asking Scenario.query) Visit.is_exception
     Visit.container_repr Visit.misuse Scenario.checker Visit.later_visit).1
    = Finished tt
  /\ exists reply,
       messages
         (session_state
            (show_qa_system (Visit.asking Scenario.query) Visit.is_exception
               Visit.container_repr Visit.misuse Scenario.checker
               Visit.later_visit).2)
       = Some (default [] (messages (session_state Visit.later_visit))
               ++ exchange Scenario.query reply)
       /\ match (answer_question Scenario.checker Scenario.query default_top_k
                   (backend Visit.later_visit)).1 with
          | Return r => dict_lookup r (lit "answer") = Some reply
          | Raise e => reply = PStr (error_text e)
          end.
Proof.
  apply (chat_gains_one_exchange (Visit.asking Scenario.query)
           Visit.is_exception Visit.container_repr Visit.misuse
           Scenario.checker Visit.later_visit Scenario.query).
  - reflexivity.
  - discriminate.
  - reflexivity.
  - intros e st' H. vm_compute in H. discriminate H.
Defined.

(** Whatever the answer to a question comes to, the services are left as
    one call of [answer_question] leaves them. *)
Lemma answer_in_chat_backend {W} is_exception container_repr misuse
    (checker : ComplianceChecker W) (q : pystr) (pg : page W)
    (ms : list message) :
  messages (session_state pg) = Some ms ->
  exists out sess shown,
    answer_in_chat is_exception container_repr misuse checker q pg =
      (out,
       {| backend := (answer_question checker q default_top_k (backend pg)).2;
          session_state := sess; rendered := shown |}).
Proof.
  intros Hm.
  destruct (answer_question checker q default_top_k (backend pg))
    as [[r|e] st'] eqn:Ha.
  - destruct (answer_question_returns _ _ _ _ _ _ Ha) as (docs & t & -> & _).
    rewrite (answer_in_chat_answered is_exception container_repr misuse
               checker q pg ms t docs st' Hm Ha).
    by eexists _, _, _.
  - destruct (is_exception e) eqn:He.
    + rewrite (answer_in_chat_caught is_exception container_repr misuse
                 checker q pg ms e st' Hm Ha He).
      by eexists _, _, _.
    + rewrite (answer_in_chat_uncaught is_exception container_repr misuse
                 checker q pg ms e st' Hm Ha He).
      by eexists _, _, _.
Qed.

(** X14: the question-answering page calls the checker at most once in a
    run, with the submitted question exactly as typed and the default
    [top_k] of 5; the chat history is never part of what is sent.  Without
    a question the services are not touched at all.  This holds whatever
    is clicked and however the call ends. *)
Theorem chat_sends_the_question_alone {W} (browser : gestures)
    (is_exception : pyexn -> bool) (container_repr : pyval -> pystr)
    (misuse : pystr -> pyval -> pyexn) (checker : ComplianceChecker W)
    (pg : page W) :
  backend (show_qa_system browser is_exception container_repr misuse
             checker pg).2
  = match submitted browser with
    | Some q =>
        if bool_decide (q = []) then backend pg
        else (answer_question checker q 5 (backend pg)).2
    | None => backend pg
    end.
Proof.
  rewrite show_qa_system_run.
  destruct (submitted browser) as [q|].
  - unfold truthy. destruct (bool_decide (q = [])); cbn [negb].
    + ui_step. by destruct (clicked browser _).
    + unfold ui_bind at 1.
      match goal with
      | |- context [answer_in_chat _ _ _ _ _ ?p] =>
          destruct (answer_in_chat_backend is_exception container_repr misuse
                      checker q p (default [] (messages (session_state pg)))
                      eq_refl)
            as (out & sess & shown & ->)
      end.
      destruct out; [|done..].
      ui_step. by destruct (clicked browser _).
  - ui_step. by destruct (clicked browser _).
Qed.


Lemma show_qa_system_cleared {W} (browser : gestures)
    (is_exception : pyexn -> bool) (container_repr : pyval -> pystr)
    (misuse : pystr -> pyval -> pyexn) (checker : ComplianceChecker W)
    (pg : page W) :
  clicked browser ([128465; 65039]%N ++ lit " Clear Chat History") = true ->
  (forall q e st',
     submitted browser = Some q ->
     answer_question checker q default_top_k (backend pg) = (Raise e, st') ->
     is_exception e = true) ->
  exists shown,
    show_qa_system browser is_exception container_repr misuse checker pg =
      (Rerun,
       {| backend :=
            match submitted browser with
            | Some q =>
                if bool_decide (q = []) then backend pg
                else (answer_question checker q default_top_k (backend pg)).2
            | None => backend pg
            end;
          session_state :=
            {| compliance_query := compliance_query (session_state pg);
               messages := Some [] |};
          rendered := shown |}).
Proof.
  intros Hclear Hcatch. cbn in Hclear.
  rewrite show_qa_system_run.
  destruct (submitted browser) as [q|] eqn:Hq.
  - unfold truthy. destruct (bool_decide (q = [])); cbn [negb].
    + ui_step. rewrite Hclear. by eexists.
    + unfold ui_bind at 1.
      match goal with
      | |- context [answer_in_chat _ _ _ _ _ ?p] =>
          destruct (answer_in_chat_replies is_exception container_repr misuse
                      checker q p (default [] (messages (session_state pg)))
                      eq_refl (fun e st' => Hcatch q e st' eq_refl))
            as (reply & shown & -> & _)
      end.
      ui_step. rewrite Hclear. by eexists.
  - ui_step. rewrite Hclear. by eexists.
Qed.

(** X16: a click on the clear button empties the chat history and restarts
    the script.  A question submitted in the same run has been answered
    first: the services are left as [answer_question] on that question
    leaves them, having been called with it; and its exchange is dropped
    with the rest.  With no question, or an empty one, the services are not
    touched. *)
Theorem clear_chat_empties_history {W} (browser : gestures)
    (is_exception : pyexn -> bool) (container_repr : pyval -> pystr)
    (misuse : pystr -> pyval -> pyexn) (checker : ComplianceChecker W)
    (pg : page W) :
  clicked browser ([128465; 65039]%N ++ lit " Clear Chat History") = true ->
  (forall q e st',
     submitted browser = Some q ->
     answer_question checker q default_top_k (backend pg) = (Raise e, st') ->
     is_exception e = true) ->
  (show_qa_system browser is_exception container_repr misuse checker pg).1
    = Rerun
  /\ messages
       (session_state
          (show_qa_system browser is_exception container_repr misuse
             checker pg).2) = Some []
  /\ backend
       (show_qa_system browser is_exception container_repr misuse
          checker pg).2
     = match submitted browser with
       | Some q =>
           if bool_decide (q = []) then backend pg
           else (answer_question checker q default_top_k (backend pg)).2
       | None => backend pg
       end.
Proof.
  intros Hclear Hcatch.
  by destruct (show_qa_system_cleared browser is_exception container_repr
                 misuse checker pg Hclear Hcatch) as (shown & ->).
Qed.

End QuestionPage.

Lemma chat_sends_the_question_alone_witness :
  backend (show_qa_system (Visit.asking Scenario.query) Visit.is_exception
             Visit.container_repr Visit.misuse Scenario.checker
             Visit.later_visit).2
  = (answer_question Scenario.checker Scenario.query 5 Scenario.start).2.
Proof.
  exact (chat_sends_the_question_alone (Visit.asking Scenario.query)
           Visit.is_exception Visit.container_repr Visit.misuse
           Scenario.checker Visit.later_visit).
Defined.


Lemma clear_chat_empties_history_witness :
  (show_qa_system (Visit.clearing Scenario.query) Visit.is_exception
     Visit.container_repr Visit.misuse Scenario.checker Visit.later_visit).1
    = Rerun
  /\ messages
       (session_state
          (show_qa_system (Visit.clearing Scenario.query) Visit.is_exception
             Visit.container_repr Visit.misuse Scenario.checker
             Visit.later_visit).2) = Some []
  /\ backend
       (show_qa_system (Visit.clearing Scenario.query) Visit.is_exception
          Visit.container_repr Visit.misuse Scenario.checker
          Visit.later_visit).2
     = (answer_question Scenario.checker Scenario.query 5 Scenario.start).2.
Proof.
  refine (clear_chat_empties_history (Visit.clearing Scenario.query)
            Visit.is_exception Visit.container_repr Visit.misuse
            Scenario.checker Visit.later_visit _ _).
  - reflexivity.
  - intros q e st' Hq H. injection Hq as <-. vm_compute in H. discriminate H.
Defined.

(** ** The compliance page *)
Section CompliancePage.

#[local] Arguments lit : simpl never.
#[local] Arguments analyse : simpl never.
#[local] Arguments check_compliance : simpl never.
#[local] Arguments compliance_result : simpl never.
#[local] Arguments py_str : simpl never.

Context {W : Type}.
Variable browser : gestures.
Variable is_exception : pyexn -> bool.
Variable container_repr : pyval -> pystr.
Variable misuse : pystr -> pyval -> pyexn.

Implicit Types (pg : page W) (checker : ComplianceChecker W).

Lemma errors_shown_app (a b : list st_call) :
  errors_shown (a ++ b) = errors_shown a ++ errors_shown b.
Proof. apply omap_app. Qed.


(** Whatever a check comes to, the services are left as one call of
    [check_compliance] leaves them. *)
Lemma analyse_backend checker q pg :
  exists out sess shown,
    analyse is_exception container_repr misuse checker q pg =
      (out,
       {| backend := (check_compliance checker q default_top_k (backend pg)).2;
          session_state := sess; rendered := shown |}).
Proof.
  destruct (check_compliance checker q default_top_k (backend pg))
    as [[r|e] st'] eqn:Hc.
  - destruct (check_compliance_returns _ _ _ _ _ _ Hc) as (docs & t & -> & _).
    rewrite (analyse_done is_exception container_repr misuse checker q pg
               t docs st' Hc).
    by eexists _, _, _.
  - destruct (is_exception e) eqn:He.
    + rewrite (analyse_caught is_exception container_repr misuse checker q pg
                 e st' Hc He).
      by eexists _, _, _.
    + rewrite (analyse_uncaught is_exception container_repr misuse checker q
                 pg e st' Hc He).
      by eexists _, _, _.
Qed.

Lemma show_compliance_checker_cleared checker pg :
  clicked browser ([128465; 65039]%N ++ lit " Clear") = true ->
  exists shown,
    show_compliance_checker browser is_exception container_repr misuse
      checker pg =
      (Rerun,
       {| backend := backend pg;
          session_state :=
            {| compliance_query := Some [];
               messages := messages (session_state pg) |};
          rendered := shown |}).
Proof.
  intros Hclear.
  destruct (show_compliance_checker_run browser is_exception container_repr
              misuse checker pg) as (kept & shown & -> & _).
  rewrite Hclear. ui_step. by eexists.
Qed.

Lemma show_compliance_checker_caught checker pg e st' :
  clicked browser ([128465; 65039]%N ++ lit " Clear") = false ->
  clicked browser ([128269%N] ++ lit " Check Compliance") = true ->
  typed browser <> [] ->
  check_compliance checker (typed browser) default_top_k (backend pg)
    = (Raise e, st') ->
  is_exception e = true ->
  exists sess shown,
    show_compliance_checker browser is_exception container_repr misuse
      checker pg =
      (Finished tt,
       {| backend := st'; session_state := sess;
          rendered := rendered pg ++ shown |})
    /\ written shown =
         [lit "Ask questions about contract compliance and get detailed analysis."]
    /\ errors_shown shown = [error_text e].
Proof.
  intros Hclear Hcheck Hq Hc He.
  destruct (show_compliance_checker_run browser is_exception container_repr
              misuse checker pg) as (kept & shown & -> & Hw & Hno).
  rewrite Hclear, Hcheck.
  assert (truthy (PStr (typed browser)) = true) as ->.
  { unfold truthy. by rewrite bool_decide_eq_false_2. }
  cbn [andb]. unfold ui_bind, ui_ret.
  match goal with
  | |- context [analyse _ _ _ _ _ ?p] =>
      rewrite (analyse_caught is_exception container_repr misuse checker
                 (typed browser) p e st' Hc He)
  end.
  cbn [rendered session_state].
  eexists _, (shown ++ _). split; [by rewrite <- app_assoc|].
  rewrite written_app, errors_shown_app, Hw, Hno. by split.
Qed.


End CompliancePage.

Section CompliancePageProperties.

#[local] Arguments lit : simpl never.
#[local] Arguments analyse : simpl never.
#[local] Arguments check_compliance : simpl never.
#[local] Arguments py_str : simpl never.

(** X17: a click on the clear button of the compliance page resets the
    query kept in the session to the empty string and restarts the script;
    no check is run in that run, even when the check button is clicked and
    a query is typed. *)
Theorem clear_query_restarts {W} (browser : gestures)
    (is_exception : pyexn -> bool) (container_repr : pyval -> pystr)
    (misuse : pystr -> pyval -> pyexn) (checker : ComplianceChecker W)
    (pg : page W) :
  clicked browser ([128465; 65039]%N ++ lit " Clear") = true ->
  (show_compliance_checker browser is_exception container_repr misuse
     checker pg).1 = Rerun
  /\ compliance_query
       (session_state
          (show_compliance_checker browser is_exception container_repr misuse
             checker pg).2) = Some []
  /\ backend
       (show_compliance_checker browser is_exception container_repr misuse
          checker pg).2 = backend pg.
Proof.
  intros Hclear.
  by destruct (show_compliance_checker_cleared browser is_exception
                 container_repr misuse checker pg Hclear) as (shown & ->).
Qed.

(** X18: when the clear button is not clicked, the compliance page calls
    the checker exactly when the check button is clicked and the text
    area is not empty: then once, with the text of the text area and the
    default [top_k] of 5.  An empty query never reaches the vector store
    or the model. *)
Theorem check_sends_the_typed_query {W} (browser : gestures)
    (is_exception : pyexn -> bool) (container_repr : pyval -> pystr)
    (misuse : pystr -> pyval -> pyexn) (checker : ComplianceChecker W)
    (pg : page W) :
  clicked browser ([128465; 65039]%N ++ lit " Clear") = false ->
  backend
    (show_compliance_checker browser is_exception container_repr misuse
       checker pg).2
  = if clicked browser ([128269%N] ++ lit " Check Compliance")
       && negb (bool_decide (typed browser = []))
    then (check_compliance checker (typed browser) 5 (backend pg)).2
    else backend pg.
Proof.
  intros Hclear.
  destruct (show_compliance_checker_run browser is_exception container_repr
              misuse checker pg) as (kept & shown & -> & _).
  rewrite Hclear. unfold truthy.
  destruct (clicked browser ([128269%N] ++ lit " Check Compliance")
            && negb (bool_decide (typed browser = []))); [|done].
  unfold ui_bind, ui_ret.
  match goal with
  | |- context [analyse _ _ _ _ _ ?p] =>
      destruct (analyse_backend (W := W) is_exception container_repr misuse
                  checker (typed browser) p)
        as (out & sess & shown' & ->)
  end.
  reflexivity.
Qed.

(** X19: when the check raises an exception that [except Exception]
    catches, the compliance page does not fail: it runs to its end and
    shows the text of the exception after a cross mark, and no analysis. *)
Theorem check_failure_is_displayed {W} (browser : gestures)
    (is_exception : pyexn -> bool) (container_repr : pyval -> pystr)
    (misuse : pystr -> pyval -> pyexn) (checker : ComplianceChecker W)
    (pg : page W) (e : pyexn) (st' : state W) :
  clicked browser ([128465; 65039]%N ++ lit " Clear") = false ->
  clicked browser ([128269%N] ++ lit " Check Compliance") = true ->
  typed browser <> [] ->
  check_compliance checker (typed browser) default_top_k (backend pg)
    = (Raise e, st') ->
  is_exception e = true ->
  (show_compliance_checker browser is_exception container_repr misuse
     checker pg).1 = Finished tt
  /\ errors_shown
       (new_rendered
          (show_compliance_checker browser is_exception container_repr misuse
             checker) pg)
     = [ [10060%N] ++ lit " Error: " ++ exn_str e ]
  /\ written
       (new_rendered
          (show_compliance_checker browser is_exception container_repr misuse
             checker) pg)
     = [lit "Ask questions about contract compliance and get detailed analysis."].
Proof.
  intros Hclear Hcheck Hq Hc He.
  destruct (show_compliance_checker_caught browser is_exception container_repr
              misuse checker pg e st' Hclear Hcheck Hq Hc He)
    as (sess & shown & Hrun & Hw & Herr).
  unfold new_rendered. rewrite Hrun. cbn [fst snd rendered].
  by rewrite drop_app_length.
Qed.


End CompliancePageProperties.

Lemma clear_query_restarts_witness :
  (show_compliance_checker (Visit.clearing Scenario.query) Visit.is_exception
     Visit.container_repr Visit.misuse Scenario.checker Visit.later_visit).1
    = Rerun
  /\ compliance_query
       (session_state
          (show_compliance_checker (Visit.clearing Scenario.query)
             Visit.is_exception Visit.container_repr Visit.misuse
             Scenario.checker Visit.later_visit).2) = Some []
  /\ backend
       (show_compliance_checker (Visit.clearing Scenario.query)
          Visit.is_exception Visit.container_repr Visit.misuse
          Scenario.checker Visit.later_visit).2 = backend Visit.later_visit.
Proof.
  apply (clear_query_restarts (Visit.clearing Scenario.query)
           Visit.is_exception Visit.container_repr Visit.misuse
           Scenario.checker Visit.later_visit).
  reflexivity.
Defined.

Lemma check_sends_the_typed_query_witness :
  backend
    (show_compliance_checker (Visit.checking Scenario.query)
       Visit.is_exception Visit.container_repr Visit.misuse Scenario.checker
       Visit.first_visit).2
  = if clicked (Visit.checking Scenario.query)
         ([128269%N] ++ lit " Check Compliance")
       && negb (bool_decide (typed (Visit.checking Scenario.query) = []))
    then (check_compliance Scenario.checker
            (typed (Visit.checking Scenario.query)) 5
            (backend Visit.first_visit)).2
    else backend Visit.first_visit.
Proof.
  apply (check_sends_the_typed_query (Visit.checking Scenario.query)
           Visit.is_exception Visit.container_repr Visit.misuse
           Scenario.checker Visit.first_visit).
  reflexivity.
Defined.

Lemma check_failure_is_displayed_witness :
  (show_compliance_checker (Visit.checking Scenario.query) Visit.is_exception
     Visit.container_repr Visit.misuse Scenario.failing_checker
     Visit.first_visit).1 = Finished tt
  /\ errors_shown
       (new_rendered
          (show_compliance_checker (Visit.checking Scenario.query)
             Visit.is_exception Visit.container_repr Visit.misuse
             Scenario.failing_checker) Visit.first_visit)
     = [ [10060%N] ++ lit " Error: " ++ exn_str Scenario.quota_error ]
  /\ written
       (new_rendered
          (show_compliance_checker (Visit.checking Scenario.query)
             Visit.is_exception Visit.container_repr Visit.misuse
             Scenario.failing_checker) Visit.first_visit)
     = [lit "Ask questions about contract compliance and get detailed analysis."].
Proof.
  apply (check_failure_is_displayed (Visit.checking Scenario.query)
           Visit.is_exception Visit.container_repr Visit.misuse
           Scenario.failing_checker Visit.first_visit Scenario.quota_error
           {| world := 1%nat;
              calls := [ CallSearch Scenario.query 5;
                         CallGenerate
                           (compliance_prompt Scenario.rules
                              (context_of Scenario.corpus) Scenario.query) ]
           |}).
  - reflexivity.
  - reflexivity.
  - discriminate.
  - reflexivity.
  - reflexivity.
Defined.


(** ** The rules explorer *)
Section RulesPage.

#[local] Arguments lit : simpl never.
#[local] Arguments py_str : simpl never.
#[local] Arguments show_rule : simpl never.
#[local] Arguments getitem : simpl never.
#[local] Arguments join : simpl never.

Context {W : Type}.
Variable browser : gestures.
Variable container_repr : pyval -> pystr.
Variable misuse : pystr -> pyval -> pyexn.

Implicit Types (pg : page W) (rule : pyval) (fields : pydict).

Lemma well_formed_rule_fields rule :
  well_formed_rule rule = true ->
  exists fields name description severity check remediation columns parts,
    rule = PDict fields
    /\ dict_lookup fields (lit "name") = Some name
    /\ dict_lookup fields (lit "description") = Some description
    /\ dict_lookup fields (lit "severity") = Some (PStr severity)
    /\ severity ∈ Spec.severities
    /\ dict_lookup fields (lit "check") = Some check
    /\ dict_lookup fields (lit "remediation") = Some remediation
    /\ dict_lookup fields (lit "related_columns") = Some (PList columns)
    /\ all_strings columns = Some parts.
Proof.
  unfold well_formed_rule, Spec.valid_rule, rule_field.
  destruct rule as [| | | | |?|fields]; try discriminate.
  cbn [forallb Spec.required_fields].
  intros H. rewrite !andb_true_iff in H. destruct_and!.
  repeat match goal with
         | H : bool_decide (is_Some _) = true |- _ =>
             apply bool_decide_eq_true in H as [? ?]
         end.
  destruct (dict_lookup fields (lit "severity")) as [[| | | |sev| |]|] eqn:Hs;
    try discriminate.
  destruct (dict_lookup fields (lit "related_columns"))
    as [[| | | | |columns|]|] eqn:Hc; try discriminate.
  cbn [default from_option id] in *.
  repeat match goal with
         | H : bool_decide _ = true |- _ => apply bool_decide_eq_true in H
         end.
  match goal with
  | H : is_Some (all_strings _) |- _ => destruct H as [parts ?]
  end.
  simplify_eq. by eexists _, _, _, _, _, _, _, _.
Qed.

Lemma severity_color_known (severity : pystr) :
  severity ∈ Spec.severities ->
  severity_color misuse (PStr severity)
  = Return (severity_icon (PStr severity)).
Proof.
  unfold severity_color, severity_icon. intros Hin.
  repeat case_decide; try done.
  unfold Spec.severities in Hin.
  rewrite !elem_of_cons, elem_of_nil in Hin.
  destruct Hin as [?|[?|[?|?]]]; done.
Qed.

Lemma subscript_found fields key v :
  dict_lookup fields key = Some v ->
  subscript misuse (PDict fields) key = Return v.
Proof. intros H. unfold subscript. by apply getitem_found. Qed.

Lemma subscript_missing fields key :
  dict_lookup fields key = None ->
  subscript misuse (PDict fields) key = Raise (key_error key).
Proof. intros H. unfold subscript, getitem. by rewrite H. Qed.

(** A rule record without [severity] stops the page with a [KeyError],
    before anything is displayed for it. *)
Lemma show_rule_missing_severity severity_filter rule_id fields pg :
  dict_lookup fields (lit "severity") = None ->
  show_rule container_repr misuse severity_filter rule_id (PDict fields) pg
  = (Crashed (key_error (lit "severity")), pg).
Proof.
  intros H. unfold show_rule. unfold ui_bind at 1. unfold ui_eval.
  by rewrite (subscript_missing _ _ H).
Qed.

(** A well-formed rule is displayed when its severity is selected, and
    passed over otherwise. *)
Lemma show_rule_well_formed severity_filter rule_id rule pg :
  well_formed_rule rule = true ->
  show_rule container_repr misuse severity_filter rule_id rule pg
  = (Finished tt,
     {| backend := backend pg; session_state := session_state pg;
        rendered := rendered pg
                    ++ rule_display container_repr severity_filter
                         (rule_id, rule) |}).
Proof.
  intros (fields & name & description & severity & check & remediation
          & columns & parts & -> & Hn & Hd & Hs & Hin & Hc & Hr & Hcols & Hp)
    %well_formed_rule_fields.
  destruct pg as [services sess shown].
  unfold rule_display, expander_label, rule_field. cbn [fst snd].
  rewrite Hn, Hd, Hs, Hc, Hr, Hcols. cbn [default from_option id].
  unfold show_rule. ui_run.
  rewrite (subscript_found _ _ _ Hs). ui_run.
  destruct (is_in (PStr severity) severity_filter); ui_run;
    [|by rewrite app_nil_r].
  rewrite (severity_color_known _ Hin). ui_run.
  rewrite (subscript_found _ _ _ Hn). ui_run.
  rewrite (subscript_found _ _ _ Hd). ui_run.
  rewrite (subscript_found _ _ _ Hc). ui_run.
  rewrite (subscript_found _ _ _ Hr). ui_run.
  rewrite (subscript_found _ _ _ Hcols). ui_run.
  destruct columns as [|c columns].
  - cbn [truthy bool_decide negb]. cbn. ui_run. list_norm. reflexivity.
  - assert (truthy (PList (c :: columns)) = true) as -> by reflexivity.
    ui_run. unfold join_value. rewrite Hp. ui_run. cbn [default from_option id].
    list_norm. reflexivity.
Qed.

Lemma for_each_well_formed severity_filter (entries : list (pystr * pyval)) pg :
  Forall (fun entry => well_formed_rule entry.2 = true) entries ->
  for_each entries
    (fun entry =>
       show_rule container_repr misuse severity_filter entry.1 entry.2) pg
  = (Finished tt,
     {| backend := backend pg; session_state := session_state pg;
        rendered := rendered pg
                    ++ List.concat
                         (List.map (rule_display container_repr severity_filter)
                            entries) |}).
Proof.
  intros Hwf. revert pg.
  induction Hwf as [|[rule_id rule] entries Hrule _ IH]; intros pg.
  - cbn. unfold ui_ret. rewrite app_nil_r. by destruct pg.
  - cbn [for_each]. unfold ui_bind. cbn [fst snd].
    rewrite (show_rule_well_formed _ _ _ _ Hrule), IH.
    cbn [backend session_state rendered List.map List.concat].
    by rewrite <- app_assoc.
Qed.

Lemma for_each_gap severity_filter (before after : list (pystr * pyval))
    rule_id fields pg :
  Forall (fun entry => well_formed_rule entry.2 = true) before ->
  dict_lookup fields (lit "severity") = None ->
  for_each (before ++ (rule_id, PDict fields) :: after)
    (fun entry =>
       show_rule container_repr misuse severity_filter entry.1 entry.2) pg
  = (Crashed (key_error (lit "severity")),
     {| backend := backend pg; session_state := session_state pg;
        rendered := rendered pg
                    ++ List.concat
                         (List.map (rule_display container_repr severity_filter)
                            before) |}).
Proof.
  intros Hwf Hgap. revert pg.
  induction Hwf as [|[id0 rule] before Hrule _ IH]; intros pg.
  - cbn [app for_each]. unfold ui_bind. cbn [fst snd].
    rewrite (show_rule_missing_severity _ _ _ _ Hgap).
    cbn. rewrite app_nil_r. by destruct pg.
  - cbn [app for_each]. unfold ui_bind. cbn [fst snd].
    rewrite (show_rule_well_formed _ _ _ _ Hrule), IH.
    cbn [backend session_state rendered List.map List.concat].
    by rewrite <- app_assoc.
Qed.

Lemma expanders_app (a b : list st_call) :
  expanders (a ++ b) = expanders a ++ expanders b.
Proof. apply omap_app. Qed.

Lemma expanders_rule_display severity_filter (entry : pystr * pyval) :
  expanders (rule_display container_repr severity_filter entry)
  = if is_in (rule_field entry.2 (lit "severity")) severity_filter
    then [expander_label container_repr entry] else [].
Proof.
  unfold rule_display.
  destruct (is_in _ severity_filter); [|done].
  rewrite !expanders_app.
  destruct (rule_field entry.2 (lit "related_columns")) as [| | | | |[|c cs]|];
    reflexivity.
Qed.

Lemma expanders_displays severity_filter (entries : list (pystr * pyval)) :
  expanders
    (List.concat (List.map (rule_display container_repr severity_filter) entries))
  = List.map (expander_label container_repr)
      (List.filter
         (fun entry => is_in (rule_field entry.2 (lit "severity")) severity_filter)
         entries).
Proof.
  induction entries as [|entry entries IH]; [done|].
  cbn [List.map List.concat List.filter].
  rewrite expanders_app, expanders_rule_display, IH.
  by destruct (is_in _ severity_filter).
Qed.

End RulesPage.

Section RulesPageProperties.

#[local] Arguments lit : simpl never.
#[local] Arguments show_rule : simpl never.

(** X21: for a rule file whose records are all well formed, the rules
    explorer runs to its end and opens one expander per rule whose severity
    is among the selected ones, in the order of the file, and none for the
    others. *)
Theorem explorer_shows_selected_rules {W} (browser : gestures)
    (container_repr : pyval -> pystr) (misuse : pystr -> pyval -> pyexn)
    (entries : list (pystr * pyval)) (pg : page W) :
  Forall (fun entry => well_formed_rule entry.2 = true) entries ->
  (show_rules_explorer browser container_repr misuse (PDict entries) pg).1
    = Finished tt
  /\ expanders
       (new_rendered
          (show_rules_explorer browser container_repr misuse (PDict entries))
          pg)
     = List.map (expander_label container_repr)
         (List.filter
            (fun entry =>
               is_in (rule_field entry.2 (lit "severity")) (selected browser))
            entries).
Proof.
  intros Hwf.
  assert (show_rules_explorer browser container_repr misuse (PDict entries) pg
          = (Finished tt,
             {| backend := backend pg; session_state := session_state pg;
                rendered := rendered pg ++
                  ([ StHeader ([128203%N] ++ lit " Compliance Rules Explorer");
                     StMultiselect (lit "Filter by Severity")
                       [lit "HIGH"; lit "MEDIUM"; lit "LOW"]
                       [lit "HIGH"; lit "MEDIUM"; lit "LOW"] ]
                   ++ List.concat
                        (List.map
                           (rule_display container_repr (selected browser))
                           entries)) |})) as Hrun.
  { unfold show_rules_explorer. destruct pg as [services sess shown].
    ui_run. unfold items_of.
    rewrite (for_each_well_formed container_repr misuse _ _ _ Hwf).
    cbn [backend session_state rendered]. list_norm. reflexivity. }
  unfold new_rendered. rewrite Hrun. cbn [fst snd rendered].
  split; [done|].
  rewrite drop_app_length, expanders_app.
  by rewrite expanders_displays.
Qed.

(** X22: a rule record without a [severity] entry makes the rules explorer
    fail with [KeyError: 'severity'], whatever severities are selected
    (also when none is): the rules before it have been displayed, those
    after it are not. *)
Theorem explorer_fails_on_missing_severity {W} (browser : gestures)
    (container_repr : pyval -> pystr) (misuse : pystr -> pyval -> pyexn)
    (before after : list (pystr * pyval)) (rule_id : pystr) (fields : pydict)
    (pg : page W) :
  Forall (fun entry => well_formed_rule entry.2 = true) before ->
  dict_lookup fields (lit "severity") = None ->
  (show_rules_explorer browser container_repr misuse
     (PDict (before ++ (rule_id, PDict fields) :: after)) pg).1
    = Crashed (PyExn (lit "KeyError") (lit "'severity'"))
  /\ expanders
       (new_rendered
          (show_rules_explorer browser container_repr misuse
             (PDict (before ++ (rule_id, PDict fields) :: after))) pg)
     = List.map (expander_label container_repr)
         (List.filter
            (fun entry =>
               is_in (rule_field entry.2 (lit "severity")) (selected browser))
            before).
Proof.
  intros Hwf Hgap.
  assert (show_rules_explorer browser container_repr misuse
            (PDict (before ++ (rule_id, PDict fields) :: after)) pg
          = (Crashed (key_error (lit "severity")),
             {| backend := backend pg; session_state := session_state pg;
                rendered := rendered pg ++
                  ([ StHeader ([128203%N] ++ lit " Compliance Rules Explorer");
                     StMultiselect (lit "Filter by Severity")
                       [lit "HIGH"; lit "MEDIUM"; lit "LOW"]
                       [lit "HIGH"; lit "MEDIUM"; lit "LOW"] ]
                   ++ List.concat
                        (List.map
                           (rule_display container_repr (selected browser))
                           before)) |})) as Hrun.
  { unfold show_rules_explorer. destruct pg as [services sess shown].
    ui_run. unfold items_of.
    rewrite (for_each_gap container_repr misuse _ _ _ _ _ _ Hwf Hgap).
    cbn [backend session_state rendered]. list_norm. reflexivity. }
  unfold new_rendered. rewrite Hrun. cbn [fst snd rendered].
  split; [by vm_compute|].
  rewrite drop_app_length, expanders_app.
  by rewrite expanders_displays.
Qed.

End RulesPageProperties.

Lemma explorer_shows_selected_rules_witness :
  (show_rules_explorer (Visit.asking Scenario.query) Visit.container_repr
     Visit.misuse Visit.two_rules Visit.first_visit).1 = Finished tt
  /\ expanders
       (new_rendered
          (show_rules_explorer (Visit.asking Scenario.query)
             Visit.container_repr Visit.misuse Visit.two_rules)
          Visit.first_visit)
     = List.map (expander_label Visit.container_repr)
         (List.filter
            (fun entry =>
               is_in (rule_field entry.2 (lit "severity"))
                 (selected (Visit.asking Scenario.query)))
            [ (lit "R1", Scenario.rule_R1); (lit "R2", Visit.rule_R2) ]).
Proof.
  apply (explorer_shows_selected_rules (Visit.asking Scenario.query)
           Visit.container_repr Visit.misuse
           [ (lit "R1", Scenario.rule_R1); (lit "R2", Visit.rule_R2) ]
           Visit.first_visit).
  repeat (constructor; [reflexivity|]). constructor.
Defined.

Lemma explorer_fails_on_missing_severity_witness :
  (show_rules_explorer Visit.idle Visit.container_repr Visit.misuse
     Visit.rules_with_gap Visit.first_visit).1
    = Crashed (PyExn (lit "KeyError") (lit "'severity'"))
  /\ expanders
       (new_rendered
          (show_rules_explorer Visit.idle Visit.container_repr Visit.misuse
             Visit.rules_with_gap) Visit.first_visit)
     = List.map (expander_label Visit.container_repr)
         (List.filter
            (fun entry =>
               is_in (rule_field entry.2 (lit "severity"))
                 (selected Visit.idle))
            [ (lit "R1", Scenario.rule_R1) ]).
Proof.
  apply (explorer_fails_on_missing_severity Visit.idle Visit.container_repr
           Visit.misuse [ (lit "R1", Scenario.rule_R1) ] [] (lit "R9")
           [ (lit "name", PStr (lit "Broken")) ] Visit.first_visit).
  - repeat (constructor; [reflexivity|]). constructor.
  - reflexivity.
Defined.

Section QuestionPageMore.

#[local] Arguments lit : simpl never.
#[local] Arguments answer_in_chat : simpl never.
#[local] Arguments answer_question : simpl never.
#[local] Arguments py_str : simpl never.

Lemma answer_in_chat_appends {W} is_exception container_repr misuse
    (checker : ComplianceChecker W) (q : pystr) (pg : page W)
    (ms : list message) :
  messages (session_state pg) = Some ms ->
  exists out services sess shown,
    answer_in_chat is_exception container_repr misuse checker q pg =
      (out,
       {| backend := services; session_state := sess;
          rendered := rendered pg ++ shown |}).
Proof.
  intros Hm.
  destruct (answer_question checker q default_top_k (backend pg))
    as [[r|e] st'] eqn:Ha.
  - destruct (answer_question_returns _ _ _ _ _ _ Ha) as (docs & t & -> & _).
    rewrite (answer_in_chat_answered is_exception container_repr misuse
               checker q pg ms t docs st' Hm Ha).
    by eexists _, _, _, _.
  - destruct (is_exception e) eqn:He.
    + rewrite (answer_in_chat_caught is_exception container_repr misuse
                 checker q pg ms e st' Hm Ha He).
      by eexists _, _, _, _.
    + rewrite (answer_in_chat_uncaught is_exception container_repr misuse
                 checker q pg ms e st' Hm Ha He).
      by eexists _, _, _, _.
Qed.

(** X23: every run of the question-answering page starts by displaying
    the whole chat history kept in the session, message by message in the
    order they were added, each under its role, before the chat input and
    before anything that answers a new question. *)
Theorem chat_redisplays_history {W} (browser : gestures)
    (is_exception : pyexn -> bool) (container_repr : pyval -> pystr)
    (misuse : pystr -> pyval -> pyexn) (checker : ComplianceChecker W)
    (pg : page W) :
  exists rest,
    new_rendered
      (show_qa_system browser is_exception container_repr misuse checker) pg
    = [ StHeader ([128172%N] ++ lit " Contract Q&A System");
        StWrite (lit "Ask any question about the contracts and get instant answers.") ]
      ++ history_render (default [] (messages (session_state pg)))
      ++ [ StChatInput (lit "Ask a question about the contracts...") ]
      ++ rest.
Proof.
  assert (exists out services sess rest,
             show_qa_system browser is_exception container_repr misuse
               checker pg
             = (out,
                {| backend := services; session_state := sess;
                   rendered := rendered pg ++
                     ([ StHeader ([128172%N] ++ lit " Contract Q&A System");
                        StWrite (lit "Ask any question about the contracts and get instant answers.") ]
                      ++ history_render
                           (default [] (messages (session_state pg)))
                      ++ [ StChatInput
                             (lit "Ask a question about the contracts...") ]
                      ++ rest) |}))
    as (out & services & sess & rest & Hrun).
  { rewrite show_qa_system_run.
    destruct (submitted browser) as [q|].
    - unfold truthy. destruct (bool_decide (q = [])); cbn [negb].
      + ui_step. destruct (clicked browser _); ui_step;
          eexists _, _, _, [_]; list_norm; reflexivity.
      + unfold ui_bind at 1.
        match goal with
        | |- context [answer_in_chat _ _ _ _ _ ?p] =>
            destruct (answer_in_chat_appends is_exception container_repr
                        misuse checker q p
                        (default [] (messages (session_state pg))) eq_refl)
              as (out & services & sess & shown & ->)
        end.
        destruct out.
        * ui_step. destruct (clicked browser _); ui_step;
            eexists _, _, _, (shown ++ [_]); list_norm; reflexivity.
        * eexists _, _, _, shown. cbn [rendered]. list_norm. reflexivity.
        * eexists _, _, _, shown. cbn [rendered]. list_norm. reflexivity.
    - ui_step. destruct (clicked browser _); ui_step;
        eexists _, _, _, [_]; list_norm; reflexivity. }
  exists rest. unfold new_rendered. rewrite Hrun. cbn [snd rendered].
  by rewrite drop_app_length.
Qed.

(** X24: an exception that is not an instance of [Exception] is not caught
    by the question-answering page: the page ends with it, and the chat
    history is left with the question and no reply to it. *)
Theorem chat_uncaught_exception {W} (browser : gestures)
    (is_exception : pyexn -> bool) (container_repr : pyval -> pystr)
    (misuse : pystr -> pyval -> pyexn) (checker : ComplianceChecker W)
    (pg : page W) (q : pystr) (e : pyexn) (st' : state W) :
  submitted browser = Some q ->
  q <> [] ->
  answer_question checker q default_top_k (backend pg) = (Raise e, st') ->
  is_exception e = false ->
  show_qa_system browser is_exception container_repr misuse checker pg
  = (Crashed e,
     {| backend := st';
        session_state :=
          {| compliance_query := compliance_query (session_state pg);
             messages :=
               Some (default [] (messages (session_state pg))
                     ++ [ {| role := lit "user"; content := PStr q |} ]) |};
        rendered :=
          rendered pg ++
          [ StHeader ([128172%N] ++ lit " Contract Q&A System");
            StWrite (lit "Ask any question about the contracts and get instant answers.") ]
          ++ history_render (default [] (messages (session_state pg)))
          ++ [ StChatInput (lit "Ask a question about the contracts...");
               StEnter (ChatMessage (lit "user")); StMarkdown (PStr q);
               StExit (ChatMessage (lit "user"));
               StEnter (ChatMessage (lit "assistant"));
               StEnter (Spinner (lit "Thinking..."));
               StExit (Spinner (lit "Thinking..."));
               StExit (ChatMessage (lit "assistant")) ] |}).
Proof.
  intros Hq Hne Ha He.
  rewrite show_qa_system_run, Hq.
  assert (truthy (PStr q) = true) as ->.
  { unfold truthy. by rewrite bool_decide_eq_false_2. }
  unfold ui_bind at 1.
  match goal with
  | |- context [answer_in_chat _ _ _ _ _ ?p] =>
      rewrite (answer_in_chat_uncaught is_exception container_repr misuse
                 checker q p (default [] (messages (session_state pg)))
                 e st' eq_refl Ha He)
  end.
  cbn [backend session_state rendered compliance_query].
  list_norm. reflexivity.
Qed.

End QuestionPageMore.

Lemma chat_redisplays_history_witness :
  exists rest,
    new_rendered
      (show_qa_system Visit.idle Visit.is_exception Visit.container_repr
         Visit.misuse Scenario.checker) Visit.later_visit
    = [ StHeader ([128172%N] ++ lit " Contract Q&A System");
        StWrite (lit "Ask any question about the contracts and get instant answers.") ]
      ++ history_render Visit.earlier
      ++ [ StChatInput (lit "Ask a question about the contracts...") ]
      ++ rest.
Proof.
  exact (chat_redisplays_history Visit.idle Visit.is_exception
           Visit.container_repr Visit.misuse Scenario.checker
           Visit.later_visit).
Defined.

Lemma chat_uncaught_exception_witness :
  (show_qa_system (Visit.asking Scenario.query) Visit.is_exception
     Visit.container_repr Visit.misuse Outages.interrupted_checker
     Visit.later_visit).1 = Crashed Outages.interrupt.
Proof.
  refine (f_equal fst
            (chat_uncaught_exception (Visit.asking Scenario.query)
               Visit.is_exception Visit.container_repr Visit.misuse
               Outages.interrupted_checker Visit.later_visit Scenario.query
               Outages.interrupt
               {| world := 1%nat;
                  calls := [ CallSearch Scenario.query 5;
                             CallGenerate
                               (qa_prompt (context_of Scenario.corpus)
                                  Scenario.query) ] |} _ _ _ _)).
  - reflexivity.
  - discriminate.
  - reflexivity.
  - reflexivity.
Defined.
